(** * SchedEase: entity store, denormalisation hooks and enrollment views

    A shallow embedding of the Mongoose schema file of SchedEase (documents,
    validators, [pre('save')] hooks, the save path) and of the admin
    enrollment view of the React front end (enrollment counting, the sorted
    enrolled-students table), together with the properties the design
    document states about them.  The scheduling engine that the design
    document describes on top of the store (conflict detection, request
    approval, publishing, enrolling) has no code in the repository; it is
    modelled from the document, in a part of its own. *)

From Stdlib Require Import ZArith Lia Ascii String.
From Stdlib Require OrderedTypeEx.
From stdpp Require Import gmap strings list fin_maps sorting pretty.

Local Open Scope Z_scope.
Local Open Scope string_scope.

(** ** JavaScript values

    Document paths may be [undefined]; a path of type [String] is an
    [option string], a [Number] an [option Z].  Object ids are opaque
    strings, as the front end receives them. *)

Abbreviation ObjectId := string.

(** Truthiness of a possibly-undefined string: [undefined] and [''] are
    falsy, every other string is truthy. *)
Definition truthy (o : option string) : bool :=
  match o with
  | Some s => negb (String.eqb s "")
  | None => false
  end.

(** [a || b] on possibly-undefined strings. *)
Definition js_or (a b : option string) : option string :=
  if truthy a then a else b.

(** ** Errors and the result monad *)

Inductive Error :=
  | ValidationError (paths : list string)   (* Mongoose ValidationError, failing paths *)
  | DuplicateKeyError (index : string)      (* MongoDB E11000 on a unique index *)
  | StoreError.                             (* a query or command that threw *)

Inductive result (A : Type) :=
  | Ok (a : A)
  | Err (e : Error).
Arguments Ok {A} a.
Arguments Err {A} e.

Global Instance result_ret : MRet result := λ A a, Ok a.
Global Instance result_bind : MBind result := λ A B f m,
  match m with
  | Ok a => f a
  | Err e => Err e
  end.

Definition is_Ok {A} (r : result A) : Prop := ∃ a, r = Ok a.

(** ** Documents

    One record per schema, with the paths of the schema in its order.  Left
    out are the paths and schemas that no operation below reads or writes:
    the password and the timestamps of a User, the availability map of an
    Instructor, the timestamps of an Instructor and of a Student, and the
    Department, Room, Notification and Subject schemas. *)

Module User.
Record t := mk {
  name : option string;
  email : option string;
  role : option string;
  department : option string;
  section : option string }.
End User.

Module Instructor.
Record t := mk {
  userId : option ObjectId;
  maxHoursPerWeek : option Z;
  specializations : list string }.
End Instructor.

Module Student.
Record t := mk {
  userId : option ObjectId;
  studentId : option string;
  department : option string;
  year : option string;
  section : option string;
  enrolledCourses : list ObjectId }.
End Student.

Module Course.
Record t := mk {
  code : option string;
  name : option string;
  department : option string;
  credits : option Z;
  type : option string;
  duration : option Z;
  studentsEnrolled : option Z;
  requiredCapacity : option Z;
  specialRequirements : list string;
  instructorId : option ObjectId;
  instructorName : option string;
  createdAt : option Z }.

Definition set_instructorName (v : option string) (c : t) : t :=
  mk (code c) (name c) (department c) (credits c) (type c) (duration c)
     (studentsEnrolled c) (requiredCapacity c) (specialRequirements c)
     (instructorId c) v (createdAt c).

Definition set_studentsEnrolled (v : option Z) (c : t) : t :=
  mk (code c) (name c) (department c) (credits c) (type c) (duration c)
     v (requiredCapacity c) (specialRequirements c)
     (instructorId c) (instructorName c) (createdAt c).
End Course.

Module Schedule.
Record t := mk {
  courseId : option ObjectId;
  instructorId : option ObjectId;
  roomId : option ObjectId;
  dayOfWeek : option string;
  startTime : option string;
  endTime : option string;
  semester : option string;
  year : option Z;
  academicYear : option string;
  status : option string;
  conflicts : list string;
  courseCode : option string;
  courseName : option string;
  instructorName : option string;
  roomName : option string;
  building : option string;
  createdAt : option Z;
  updatedAt : option Z }.

Definition set_updatedAt (v : option Z) (s : t) : t :=
  mk (courseId s) (instructorId s) (roomId s) (dayOfWeek s) (startTime s)
     (endTime s) (semester s) (year s) (academicYear s) (status s)
     (conflicts s) (courseCode s) (courseName s) (instructorName s)
     (roomName s) (building s) (createdAt s) v.

Definition set_status_conflicts (st : option string) (cs : list string) (s : t) : t :=
  mk (courseId s) (instructorId s) (roomId s) (dayOfWeek s) (startTime s)
     (endTime s) (semester s) (year s) (academicYear s) st
     cs (courseCode s) (courseName s) (instructorName s)
     (roomName s) (building s) (createdAt s) (updatedAt s).

Definition set_roomId (v : option ObjectId) (s : t) : t :=
  mk (courseId s) (instructorId s) v (dayOfWeek s) (startTime s)
     (endTime s) (semester s) (year s) (academicYear s) (status s)
     (conflicts s) (courseCode s) (courseName s) (instructorName s)
     (roomName s) (building s) (createdAt s) (updatedAt s).

Definition set_window (d st en : option string) (s : t) : t :=
  mk (courseId s) (instructorId s) (roomId s) d st
     en (semester s) (year s) (academicYear s) (status s)
     (conflicts s) (courseCode s) (courseName s) (instructorName s)
     (roomName s) (building s) (createdAt s) (updatedAt s).
End Schedule.

Module ScheduleRequest.
Record t := mk {
  instructorId : option ObjectId;
  courseId : option ObjectId;
  scheduleId : option ObjectId;
  requestType : option string;
  roomId : option ObjectId;
  date : option string;
  dayOfWeek : option string;
  startTime : option string;
  endTime : option string;
  semester : option string;
  year : option Z;
  purpose : option string;
  notes : option string;
  conflict_flag : bool;
  conflicts : list string;
  instructorName : option string;
  courseName : option string;
  courseCode : option string;
  roomName : option string;
  details : option string;
  status : option string;
  createdAt : option Z;
  updatedAt : option Z }.

Definition set_status (v : option string) (r : t) : t :=
  mk (instructorId r) (courseId r) (scheduleId r) (requestType r) (roomId r)
     (date r) (dayOfWeek r) (startTime r) (endTime r) (semester r) (year r)
     (purpose r) (notes r) (conflict_flag r) (conflicts r)
     (instructorName r) (courseName r) (courseCode r) (roomName r)
     (details r) v (createdAt r) (updatedAt r).

Definition set_conflicts (f : bool) (cs : list string) (r : t) : t :=
  mk (instructorId r) (courseId r) (scheduleId r) (requestType r) (roomId r)
     (date r) (dayOfWeek r) (startTime r) (endTime r) (semester r) (year r)
     (purpose r) (notes r) f cs
     (instructorName r) (courseName r) (courseCode r) (roomName r)
     (details r) (status r) (createdAt r) (updatedAt r).
End ScheduleRequest.

Module Enrollment.
Record t := mk {
  studentId : option ObjectId;
  courseId : option ObjectId;
  scheduleId : option ObjectId;
  instructorId : option ObjectId;
  yearLevel : option string;
  section : option string;
  department : option string;
  studentName : option string;
  courseName : option string;
  courseCode : option string;
  createdAt : option Z }.

Definition set_student (nm dep : option string) (e : t) : t :=
  mk (studentId e) (courseId e) (scheduleId e) (instructorId e)
     (yearLevel e) (section e) dep nm (courseName e) (courseCode e)
     (createdAt e).

Definition set_course (nm cd : option string) (e : t) : t :=
  mk (studentId e) (courseId e) (scheduleId e) (instructorId e)
     (yearLevel e) (section e) (department e) (studentName e) nm cd
     (createdAt e).
End Enrollment.

(** ** The store

    One collection per model, keyed by [_id].  [up = false] models a store
    whose queries and commands throw (connection lost, time-out). *)

Record DB := mkDB {
  users : gmap string User.t;
  instructors : gmap string Instructor.t;
  students : gmap string Student.t;
  courses : gmap string Course.t;
  schedules : gmap string Schedule.t;
  scheduleRequests : gmap string ScheduleRequest.t;
  enrollments : gmap string Enrollment.t;
  up : bool }.

Definition set_courses (v : gmap string Course.t) (db : DB) : DB :=
  mkDB (users db) (instructors db) (students db) v (schedules db)
       (scheduleRequests db) (enrollments db) (up db).

Definition set_schedules (v : gmap string Schedule.t) (db : DB) : DB :=
  mkDB (users db) (instructors db) (students db) (courses db) v
       (scheduleRequests db) (enrollments db) (up db).

Definition set_scheduleRequests (v : gmap string ScheduleRequest.t) (db : DB) : DB :=
  mkDB (users db) (instructors db) (students db) (courses db) (schedules db)
       v (enrollments db) (up db).

Definition set_enrollments (v : gmap string Enrollment.t) (db : DB) : DB :=
  mkDB (users db) (instructors db) (students db) (courses db) (schedules db)
       (scheduleRequests db) v (up db).

(** [Model.findById(id)]: the document, [null] ([None]) when there is none,
    or a thrown error when the store is down.  An [undefined] id finds
    nothing. *)
Definition findById {D} (db : DB) (coll : gmap string D) (id : option ObjectId)
  : result (option D) :=
  if up db then Ok (id ≫= λ i, coll !! i) else Err StoreError.

(** [.populate('userId')]: the referenced User replaces the id, [null] when
    the user does not exist. *)
Definition populate_user (db : DB) (uid : option ObjectId) : option User.t :=
  uid ≫= λ i, users db !! i.

(** ** Course: validators, the denormalising hook and the save path *)

Definition required_str (path : string) (v : option string) : list string :=
  if truthy v then [] else [path].

Definition required_num (path : string) (v : option Z) : list string :=
  match v with Some _ => [] | None => [path] end.

Definition min_num (path : string) (lo : Z) (v : option Z) : list string :=
  match v with
  | Some n => if (n <? lo)%Z then [path] else []
  | None => []
  end.

Definition enum_str (path : string) (allowed : list string) (v : option string)
  : list string :=
  match v with
  | Some s => if bool_decide (s ∈ allowed) then [] else [path]
  | None => []
  end.

(** The paths of a Course that fail validation, in schema order. *)
Definition Course_invalid_paths (c : Course.t) : list string :=
  required_str "code" (Course.code c) ++
  required_str "name" (Course.name c) ++
  required_str "department" (Course.department c) ++
  required_num "credits" (Course.credits c) ++
  min_num "credits" 1 (Course.credits c) ++
  required_str "type" (Course.type c) ++
  enum_str "type" ["lecture"; "lab"; "seminar"] (Course.type c) ++
  required_num "duration" (Course.duration c) ++
  min_num "duration" 30 (Course.duration c) ++
  min_num "studentsEnrolled" 0 (Course.studentsEnrolled c) ++
  required_num "requiredCapacity" (Course.requiredCapacity c) ++
  min_num "requiredCapacity" 1 (Course.requiredCapacity c).

(** The unique index on [code]: some other stored course has this code. *)
Definition Course_code_taken (db : DB) (id : ObjectId) (c : Course.t) : bool :=
  bool_decide (Exists (λ p, p.1 ≠ id ∧ Course.code p.2 = Course.code c)
                      (map_to_list (courses db))).

Section CourseSave.
(** [String.prototype.trim], applied by the [trim: true] setter of
    [instructorName] whenever a string is assigned to that path. *)
Context (trim : string → string).

(** [courseSchema.pre('save')]. *)
Definition Course_pre_save (db : DB) (c : Course.t) : result Course.t :=
  match Course.instructorId c with
  | Some i =>
      instr ← findById db (instructors db) (Some i);
      match instr with
      | Some ins =>
          match populate_user db (Instructor.userId ins) with
          | Some u =>
              if truthy (User.name u)
              then Ok (Course.set_instructorName (trim <$> User.name u) c)
              else Ok c
          | None => Ok c
          end
      | None => Ok c
      end
  | None => Ok (Course.set_instructorName None c)
  end.

(** [course.save()]: built-in validation, then the hook, then the write,
    which the unique index on [code] may refuse. *)
Definition Course_save (db : DB) (id : ObjectId) (c : Course.t) : result DB :=
  match Course_invalid_paths c with
  | [] =>
      c' ← Course_pre_save db c;
      if negb (up db) then Err StoreError
      else if Course_code_taken db id c' then Err (DuplicateKeyError "code")
      else Ok (set_courses (<[id := c']> (courses db)) db)
  | ps => Err (ValidationError ps)
  end.

End CourseSave.

(** ** Enrollment: validators, the denormalising hook and the save path *)

(** What [save()] knows about the document: whether it is new and which
    paths were modified since it was loaded. *)
Record SaveCtx := mkCtx {
  isNew : bool;
  modifiedPaths : list string }.

Definition isModified (ctx : SaveCtx) (path : string) : bool :=
  bool_decide (path ∈ modifiedPaths ctx).

Definition required_id (path : string) (v : option ObjectId) : list string :=
  match v with Some _ => [] | None => [path] end.

Definition Enrollment_invalid_paths (e : Enrollment.t) : list string :=
  required_id "studentId" (Enrollment.studentId e) ++
  required_id "courseId" (Enrollment.courseId e) ++
  enum_str "yearLevel" ["1"; "2"; "3"; "4"] (Enrollment.yearLevel e).

(** [enrollmentSchema.pre('save')]. *)
Definition Enrollment_pre_save (db : DB) (ctx : SaveCtx) (e : Enrollment.t)
  : result Enrollment.t :=
  if isNew ctx || isModified ctx "studentId" || isModified ctx "courseId" then
    student ← findById db (students db) (Enrollment.studentId e);
    let e1 :=
      match student with
      | Some st =>
          match populate_user db (Student.userId st) with
          | Some u =>
              Enrollment.set_student (User.name u)
                (js_or (js_or (Student.department st) (User.department u))
                       (Enrollment.department e)) e
          | None => e
          end
      | None => e
      end in
    course ← findById db (courses db) (Enrollment.courseId e1);
    match course with
    | Some c => Ok (Enrollment.set_course (Course.name c) (Course.code c) e1)
    | None => Ok e1
    end
  else Ok e.

(** [enrollment.save()].  The schema declares no index: the write is
    refused only by a store that is down. *)
Definition Enrollment_save (db : DB) (ctx : SaveCtx) (id : ObjectId)
    (e : Enrollment.t) : result DB :=
  match Enrollment_invalid_paths e with
  | [] =>
      e' ← Enrollment_pre_save db ctx e;
      if negb (up db) then Err StoreError
      else Ok (set_enrollments (<[id := e']> (enrollments db)) db)
  | ps => Err (ValidationError ps)
  end.

(** ** Schedule: defaults, validators, the timestamp hook, the save path *)

Definition daysOfWeek : list string :=
  ["Monday"; "Tuesday"; "Wednesday"; "Thursday"; "Friday"; "Saturday"; "Sunday"].

Definition semesters : list string := ["First Term"; "Second Term"; "Third Term"].

Definition scheduleStatuses : list string :=
  ["draft"; "published"; "conflict"; "canceled"].

Definition default_to {A} (d : A) (v : option A) : option A :=
  match v with Some x => Some x | None => Some d end.

(** [new Schedule(obj)] at time [now]: the schema defaults fill the paths
    the caller left undefined. *)
Definition Schedule_new (now : Z) (s : Schedule.t) : Schedule.t :=
  Schedule.mk (Schedule.courseId s) (Schedule.instructorId s) (Schedule.roomId s)
    (Schedule.dayOfWeek s) (Schedule.startTime s) (Schedule.endTime s)
    (Schedule.semester s) (Schedule.year s) (Schedule.academicYear s)
    (default_to "published" (Schedule.status s))
    (Schedule.conflicts s) (Schedule.courseCode s) (Schedule.courseName s)
    (Schedule.instructorName s) (Schedule.roomName s) (Schedule.building s)
    (default_to now (Schedule.createdAt s))
    (default_to now (Schedule.updatedAt s)).

Definition Schedule_invalid_paths (s : Schedule.t) : list string :=
  required_id "courseId" (Schedule.courseId s) ++
  required_id "instructorId" (Schedule.instructorId s) ++
  required_id "roomId" (Schedule.roomId s) ++
  required_str "dayOfWeek" (Schedule.dayOfWeek s) ++
  enum_str "dayOfWeek" daysOfWeek (Schedule.dayOfWeek s) ++
  required_str "startTime" (Schedule.startTime s) ++
  required_str "endTime" (Schedule.endTime s) ++
  required_str "semester" (Schedule.semester s) ++
  enum_str "semester" semesters (Schedule.semester s) ++
  required_num "year" (Schedule.year s) ++
  required_str "academicYear" (Schedule.academicYear s) ++
  enum_str "status" scheduleStatuses (Schedule.status s).

(** [scheduleSchema.pre('save')], run at time [now]. *)
Definition Schedule_pre_save (now : Z) (s : Schedule.t) : Schedule.t :=
  Schedule.set_updatedAt (Some now) s.

(** [schedule.save()] at time [now]. *)
Definition Schedule_save (db : DB) (now : Z) (id : ObjectId) (s : Schedule.t)
  : result DB :=
  match Schedule_invalid_paths s with
  | [] =>
      let s' := Schedule_pre_save now s in
      if negb (up db) then Err StoreError
      else Ok (set_schedules (<[id := s']> (schedules db)) db)
  | ps => Err (ValidationError ps)
  end.

(** ** ScheduleRequest: validators and the save path (the schema has no hook) *)

Definition requestTypes : list string :=
  ["room_change"; "time_change"; "schedule_conflict"].

Definition purposes : list string := ["make-up class"; "quiz"; "unit test"].

Definition requestStatuses : list string :=
  ["pending"; "under_review"; "approved"; "rejected"].

Definition ScheduleRequest_invalid_paths (r : ScheduleRequest.t) : list string :=
  required_id "instructorId" (ScheduleRequest.instructorId r) ++
  required_str "requestType" (ScheduleRequest.requestType r) ++
  enum_str "requestType" requestTypes (ScheduleRequest.requestType r) ++
  enum_str "purpose" purposes (ScheduleRequest.purpose r) ++
  required_str "details" (ScheduleRequest.details r) ++
  enum_str "status" requestStatuses (ScheduleRequest.status r).

Definition ScheduleRequest_save (db : DB) (id : ObjectId) (r : ScheduleRequest.t)
  : result DB :=
  match ScheduleRequest_invalid_paths r with
  | [] =>
      if negb (up db) then Err StoreError
      else Ok (set_scheduleRequests (<[id := r]> (scheduleRequests db)) db)
  | ps => Err (ValidationError ps)
  end.

(** ** The admin enrollment view (AdminEnrollmentManagement.tsx)

    *** Enrollment counts per schedule ([loadEnrolledStudents]) *)

(** A reference path of an API record, typed [any] in the source: an id
    string, or a populated object with its optional [_id] and [id]. *)
Inductive Ref :=
  | RefId (s : string)
  | RefObj (_id : option string) (id : option string).

Definition ref_truthy (r : option Ref) : bool :=
  match r with
  | Some (RefId s) => negb (String.eqb s "")
  | Some (RefObj _ _) => true
  | None => false
  end.

(** [r._id] and [r.id]: a string primitive has neither property. *)
Definition ref__id (r : Ref) : option string :=
  match r with RefId _ => None | RefObj i _ => i end.

Definition ref_id (r : Ref) : option string :=
  match r with RefId _ => None | RefObj _ i => i end.

(** The paths of an enrollment of the API response that the count reads. *)
Record EnrollmentJson := mkEnrollmentJson {
  e_scheduleId : option Ref;
  e_schedule : option Ref }.

(** Keys of the [enrollmentsBySchedule] Map: a string, or an object, which
    a Map compares by identity; the object of the [n]-th enrollment of the
    response is named [n]. *)
Inductive MapKey :=
  | KStr (s : string)
  | KObj (n : nat).

Global Instance MapKey_eq_dec : EqDecision MapKey.
Proof. solve_decision. Defined.

Global Instance MapKey_countable : Countable MapKey.
Proof.
  refine (inj_countable'
    (λ k, match k with KStr s => inl s | KObj n => inr n end)
    (λ x, match x with inl s => KStr s | inr n => KObj n end) _).
  by intros [].
Defined.

(** [const schedule = e.scheduleId || e.schedule || {};
     const scheduleId = schedule._id || schedule.id || e.scheduleId;]
    for the [n]-th enrollment; [None] when [scheduleId] is falsy. *)
Definition scheduleKey (n : nat) (e : EnrollmentJson) : option MapKey :=
  let schedule :=
    if ref_truthy (e_scheduleId e) then default (RefObj None None) (e_scheduleId e)
    else if ref_truthy (e_schedule e) then default (RefObj None None) (e_schedule e)
    else RefObj None None in
  if truthy (ref__id schedule) then KStr <$> ref__id schedule
  else if truthy (ref_id schedule) then KStr <$> ref_id schedule
  else match e_scheduleId e with
       | Some (RefId s) => if String.eqb s "" then None else Some (KStr s)
       | Some (RefObj _ _) => Some (KObj n)
       | None => None
       end.

(** [a || b] on a possibly-undefined count: [undefined] and [0] are falsy. *)
Definition count_or (a : option nat) (b : nat) : nat :=
  match a with
  | Some (S n) => S n
  | _ => b
  end.

(** One round of the [enrollmentsList.map] callback on the Map. *)
Definition track (m : gmap MapKey nat) (n : nat) (e : EnrollmentJson)
  : gmap MapKey nat :=
  match scheduleKey n e with
  | Some k => <[k := (count_or (m !! k) 0 + 1)%nat]> m
  | None => m
  end.

(** The Map after the enrollments from position [n] on went through the
    callback, in order. *)
Fixpoint trackAll (m : gmap MapKey nat) (n : nat) (es : list EnrollmentJson)
  : gmap MapKey nat :=
  match es with
  | [] => m
  | e :: es' => trackAll (track m n e) (S n) es'
  end.

Definition enrollmentsBySchedule (es : list EnrollmentJson) : gmap MapKey nat :=
  trackAll ∅ 0 es.








(** *** The enrolled-students table *)

Record EnrolledStudent := mkEnrolledStudent {
  es_id : string;
  es_studentId : string;
  es_studentName : string;
  es_yearLevel : string;
  es_section : string;
  es_department : string;
  es_courseId : string;
  es_courseCode : string;
  es_courseName : string;
  es_scheduleId : string;
  es_instructorName : string;
  es_dayOfWeek : string;
  es_startTime : string;
  es_endTime : string;
  es_semester : string;
  es_academicYear : string }.

(** [Array.prototype.sort(cmp)] is a stable sort: [a] is placed before [b]
    when [cmp(a, b) < 0], and elements that compare equal keep their order.
    For a consistent comparator the result is the one this insertion sort
    computes. *)
Fixpoint js_insert {A} (cmp : A → A → Z) (x : A) (l : list A) : list A :=
  match l with
  | [] => [x]
  | y :: l' => if (cmp y x <? 0)%Z then y :: js_insert cmp x l' else x :: y :: l'
  end.

Fixpoint js_sort {A} (cmp : A → A → Z) (l : list A) : list A :=
  match l with
  | [] => []
  | x :: l' => js_insert cmp x (js_sort cmp l')
  end.

(** Arrays live in a heap and are handled by reference: [sort] works in
    place, [[...a]] allocates. *)
Abbreviation Heap := (gmap nat (list EnrolledStudent)).

(** [[...a]]: a new array with the elements of [a]. *)
Definition spread (h : Heap) (a : nat) : option (Heap * nat) :=
  arr ← h !! a;
  let a' := fresh (dom h) in
  Some (<[a' := arr]> h, a').

(** [a.sort(cmp)]: sorts the array [a] in place and returns [a]. *)
Definition array_sort (cmp : EnrolledStudent → EnrolledStudent → Z)
    (h : Heap) (a : nat) : option (Heap * nat) :=
  arr ← h !! a;
  Some (<[a := js_sort cmp arr]> h, a).

Section Table.
(** [String.prototype.localeCompare]: negative, zero or positive. *)
Context (localeCompare : string → string → Z).

(** [sortEnrolledStudents]; [!==] on strings is inequality of contents. *)
Definition sortEnrolledStudents (a b : EnrolledStudent) : Z :=
  if negb (String.eqb (es_yearLevel a) (es_yearLevel b))
  then localeCompare (es_yearLevel a) (es_yearLevel b)
  else if negb (String.eqb (es_section a) (es_section b))
  then localeCompare (es_section a) (es_section b)
  else localeCompare (es_studentName a) (es_studentName b).

(** [[...enrolledStudents].sort(sortEnrolledStudents)], the rows of the
    table in display order, for the state array at [enrolledStudents]. *)
Definition tableRows (h : Heap) (enrolledStudents : nat)
  : option (Heap * list EnrolledStudent) :=
  '(h1, copy) ← spread h enrolledStudents;
  '(h2, sorted) ← array_sort sortEnrolledStudents h1 copy;
  rows ← h2 !! sorted;
  Some (h2, rows).

(** The order the table is meant to show: year level, then section, then
    student name, each by [localeCompare]. *)
Definition lc_lt (a b : string) : Prop := localeCompare a b < 0.

Definition enrolled_le (a b : EnrolledStudent) : Prop :=
  lc_lt (es_yearLevel a) (es_yearLevel b) ∨
  (es_yearLevel a = es_yearLevel b ∧
   (lc_lt (es_section a) (es_section b) ∨
    (es_section a = es_section b ∧
     (lc_lt (es_studentName a) (es_studentName b) ∨
      es_studentName a = es_studentName b)))).

End Table.

(** Rows that the table order does not tell apart. *)
Definition same_keys (a b : EnrolledStudent) : Prop :=
  es_yearLevel a = es_yearLevel b ∧
  es_section a = es_section b ∧
  es_studentName a = es_studentName b.

Global Instance same_keys_dec a b : Decision (same_keys a b).
Proof. unfold same_keys. apply _. Defined.

(** What the table needs of [localeCompare]: a strict total order on
    strings, zero exactly on equal strings. *)
Class Collation (localeCompare : string → string → Z) : Prop := {
  lc_eq : ∀ a b, localeCompare a b = 0 ↔ a = b;
  lc_antisym : ∀ a b, localeCompare a b < 0 ↔ 0 < localeCompare b a;
  lc_trans : ∀ a b c,
    localeCompare a b < 0 → localeCompare b c < 0 → localeCompare a c < 0 }.

(** Comparison by code units, the collation of the root locale on ASCII
    digits and capitals. *)
Definition codeUnitCompare (a b : string) : Z :=
  match String.compare a b with
  | Lt => -1
  | Eq => 0
  | Gt => 1
  end.

(** ** The scheduling engine of the design document

    The repository holds the schemas and the admin views.  The Conflict
    Detector, the Request Approval Workflow, the publish path and the
    Enrollment Consistency Guard exist in the design document only; they
    are modelled from its sections 4.2 to 4.4 over the store above. *)

(** Modelled from the spec: the time-bounded resource claim that the
    Conflict Detector compares (section 4.2); the repository has no
    conflict detection code.  A claim is read off a Schedule or a
    ScheduleRequest. *)
Record Claim := mkClaim {
  cl_id : ObjectId;
  cl_roomId : option ObjectId;
  cl_instructorId : option ObjectId;
  cl_dayOfWeek : option string;
  cl_date : option string;
  cl_startTime : option string;
  cl_endTime : option string;
  cl_status : option string;
  cl_createdAt : Z }.

(** Modelled from the spec: a Schedule as a claim (it has no [date]). *)
Definition claim_of_schedule (id : ObjectId) (s : Schedule.t) : Claim :=
  mkClaim id (Schedule.roomId s) (Schedule.instructorId s)
    (Schedule.dayOfWeek s) None (Schedule.startTime s) (Schedule.endTime s)
    (Schedule.status s) (default 0 (Schedule.createdAt s)).

(** Modelled from the spec: a ScheduleRequest as a claim. *)
Definition claim_of_request (id : ObjectId) (r : ScheduleRequest.t) : Claim :=
  mkClaim id (ScheduleRequest.roomId r) (ScheduleRequest.instructorId r)
    (ScheduleRequest.dayOfWeek r) (ScheduleRequest.date r)
    (ScheduleRequest.startTime r) (ScheduleRequest.endTime r)
    (ScheduleRequest.status r) (default 0 (ScheduleRequest.createdAt r)).

(** Modelled from the spec: two paths are defined and hold the same
    string. *)
Definition same_str (a b : option string) : bool :=
  match a, b with
  | Some x, Some y => String.eqb x y
  | _, _ => false
  end.

(** Modelled from the spec: [a < b] on HH:MM strings, the order of strings
    by code units, which is the order of the clock on zero-padded times. *)
Definition time_lt (a b : option string) : bool :=
  match a, b with
  | Some x, Some y => String.ltb x y
  | _, _ => false
  end.

(** Modelled from the spec: the HH:MM string of an hour and a minute, both
    zero-padded to two digits. *)
Definition two_digits (n : nat) : string :=
  String (ascii_of_nat (48 + n / 10))
    (String (ascii_of_nat (48 + n mod 10)) EmptyString).

Definition hhmm (h m : nat) : string :=
  two_digits h ++ ":" ++ two_digits m.

(** Modelled from the spec: the two claims share the same dayOfWeek, or the
    same date (section 4.2, first bullet). *)
Definition same_day (c e : Claim) : bool :=
  same_str (cl_dayOfWeek c) (cl_dayOfWeek e) || same_str (cl_date c) (cl_date e).

(** Modelled from the spec: half-open interval overlap on the same day,
    [candidate.start < existing.end AND existing.start < candidate.end]. *)
Definition windowsOverlap (c e : Claim) : bool :=
  same_day c e
  && time_lt (cl_startTime c) (cl_endTime e)
  && time_lt (cl_startTime e) (cl_endTime c).

(** Modelled from the spec: the reading of [same_day] and [time_lt] as
    propositions, the words of section 4.2. *)
Definition shares_day (c e : Claim) : Prop :=
  (∃ d, cl_dayOfWeek c = Some d ∧ cl_dayOfWeek e = Some d) ∨
  (∃ d, cl_date c = Some d ∧ cl_date e = Some d).

(** Modelled from the spec: both times are defined and the first is
    strictly earlier. *)
Definition earlier (a b : option string) : Prop :=
  ∃ x y, a = Some x ∧ b = Some y ∧ String.compare x y = Lt.

(** Modelled from the spec: touching windows, one ends exactly when the
    other starts. *)
Definition touching (c e : Claim) : Prop :=
  cl_endTime c = cl_startTime e ∨ cl_endTime e = cl_startTime c.

(** Modelled from the spec: only published Schedules and approved
    ScheduleRequests are compared against. *)
Definition eligible (e : Claim) : bool :=
  same_str (cl_status e) (Some "published") || same_str (cl_status e) (Some "approved").

(** Modelled from the spec: room conflict, [same roomId, overlapping window,
    different schedule identity]. *)
Definition roomConflict (c e : Claim) : bool :=
  same_str (cl_roomId c) (cl_roomId e)
  && windowsOverlap c e
  && negb (String.eqb (cl_id c) (cl_id e)).

(** Modelled from the spec: instructor conflict, [same instructorId,
    overlapping window, different schedule identity]. *)
Definition instructorConflict (c e : Claim) : bool :=
  same_str (cl_instructorId c) (cl_instructorId e)
  && windowsOverlap c e
  && negb (String.eqb (cl_id c) (cl_id e)).

(** Modelled from the spec: a finding of the detector, naming the existing
    record. *)
Inductive ConflictDescription :=
  | RoomConflict (existing : ObjectId)
  | InstructorConflict (existing : ObjectId).

(** Modelled from the spec: the human-readable form stored in [conflicts]. *)
Definition describe (d : ConflictDescription) : string :=
  match d with
  | RoomConflict i => "Room conflict with " ++ i
  | InstructorConflict i => "Instructor conflict with " ++ i
  end.

(** Modelled from the spec: creation timestamp ascending. *)
Definition createdBefore (a b : Claim) : Prop :=
  (cl_createdAt a ≤ cl_createdAt b)%Z.

Global Instance createdBefore_dec : RelDecision createdBefore.
Proof. intros a b. unfold createdBefore. apply _. Defined.

(** Modelled from the spec: the comparison set, eligible records by
    creation time. *)
Definition comparisonSet (existing : list Claim) : list Claim :=
  merge_sort createdBefore (filter (λ e, eligible e = true) existing).

(** Modelled from the spec: [detectConflicts(candidate, existingSet)],
    section 4.2: room findings, then instructor findings, each by creation
    time of the existing record.  The third class (student conflicts of
    enrollment-affecting changes) reads the enrollment ledger, which this
    signature does not receive; it is not modelled. *)
Definition detectConflicts (c : Claim) (existing : list Claim)
  : list ConflictDescription :=
  ((λ e, RoomConflict (cl_id e))
     <$> filter (λ e, roomConflict c e = true) (comparisonSet existing)) ++
  ((λ e, InstructorConflict (cl_id e))
     <$> filter (λ e, instructorConflict c e = true) (comparisonSet existing)).

(** Modelled from the spec: the records of the store that conflict checks
    compare against (glossary, Approved set); the detector keeps the
    published and approved ones. *)
Definition approvedSet (db : DB) : list Claim :=
  ((λ p, claim_of_schedule p.1 p.2) <$> map_to_list (schedules db)) ++
  ((λ p, claim_of_request p.1 p.2) <$> map_to_list (scheduleRequests db)).

(** Modelled from the spec: the errors of section 7 that the engine
    returns. *)
Inductive EngineError :=
  | NotFound
  | ConflictDetected (conflicts : list string)
  | IllegalTransition
  | DuplicateEnrollmentError
  | StoreFailure (e : Error).

(** Modelled from the spec: [evaluateRequest], the detector run for a
    request against the store; [conflict_flag] is true exactly when
    findings exist (section 3, ScheduleRequest invariant). *)
Definition evaluateRequest (db : DB) (id : ObjectId) (r : ScheduleRequest.t)
  : ScheduleRequest.t :=
  let cs := describe <$> detectConflicts (claim_of_request id r) (approvedSet db) in
  ScheduleRequest.set_conflicts (negb (bool_decide (cs = []))) cs r.

(** Modelled from the spec: [publishSchedule(Schedule) -> {status,
    conflicts}]: the detector runs first, a finding makes the status
    [conflict] and fills the list, none makes it [published] with an empty
    list; the outcome goes through the save path of the schema. *)
Definition publishSchedule (db : DB) (now : Z) (id : ObjectId) (s : Schedule.t)
  : DB * (EngineError + (string * list string)) :=
  let cs := describe <$> detectConflicts (claim_of_schedule id s) (approvedSet db) in
  let st := if bool_decide (cs = []) then "published" else "conflict" in
  match Schedule_save db now id (Schedule.set_status_conflicts (Some st) cs s) with
  | Ok db' => (db', inr (st, cs))
  | Err e => (db, inl (StoreFailure e))
  end.

(** Modelled from the spec: the states of a request (section 4.3). *)
Inductive RequestState := Pending | UnderReview | Approved | Rejected.

(** Modelled from the spec: the stored name of a state. *)
Definition state_name (s : RequestState) : string :=
  match s with
  | Pending => "pending"
  | UnderReview => "under_review"
  | Approved => "approved"
  | Rejected => "rejected"
  end.

(** Modelled from the spec: the state a stored status names. *)
Definition state_of (status : option string) : option RequestState :=
  match status with
  | Some s =>
      if String.eqb s "pending" then Some Pending
      else if String.eqb s "under_review" then Some UnderReview
      else if String.eqb s "approved" then Some Approved
      else if String.eqb s "rejected" then Some Rejected
      else None
  | None => None
  end.

(** Modelled from the spec: on approval of a [room_change] or [time_change]
    request, the Schedule it names takes the new room or time and is
    checked again (section 4.3, fourth bullet). *)
Definition applyRequest (db : DB) (now : Z) (r : ScheduleRequest.t)
  : DB * (EngineError + unit) :=
  match ScheduleRequest.scheduleId r with
  | Some sid =>
      match schedules db !! sid with
      | Some s =>
          let s' :=
            if same_str (ScheduleRequest.requestType r) (Some "room_change")
            then Some (Schedule.set_roomId (ScheduleRequest.roomId r) s)
            else if same_str (ScheduleRequest.requestType r) (Some "time_change")
            then Some (Schedule.set_window
                         (js_or (ScheduleRequest.dayOfWeek r) (Schedule.dayOfWeek s))
                         (ScheduleRequest.startTime r)
                         (ScheduleRequest.endTime r) s)
            else None in
          match s' with
          | Some s' =>
              match publishSchedule db now sid s' with
              | (db', inr _) => (db', inr ())
              | (_, inl e) => (db, inl e)
              end
          | None => (db, inr ())
          end
      | None => (db, inr ())
      end
  | None => (db, inr ())
  end.

(** Modelled from the spec: the record moves to [target] and is persisted;
    a store that refuses aborts the whole transition and hands back the
    store [db0] it started from (section 5, last bullet). *)
Definition commitState (db0 db : DB) (now : Z) (id : ObjectId)
    (r : ScheduleRequest.t) (target : RequestState)
  : DB * (EngineError + ScheduleRequest.t) :=
  let r' := ScheduleRequest.set_status (Some (state_name target)) r in
  match ScheduleRequest_save db id r' with
  | Ok db1 =>
      match target with
      | Approved =>
          match applyRequest db1 now r' with
          | (db2, inr _) => (db2, inr r')
          | (_, inl e) => (db0, inl e)
          end
      | _ => (db1, inr r')
      end
  | Err e => (db0, inl (StoreFailure e))
  end.

(** Modelled from the spec: [transitionRequest(RequestId, targetState) ->
    UpdatedRequest | Error], the rules of section 4.3 in the order the
    section lists them: the conflict check on entering [under_review] or
    attempting [approved], persisted whatever follows; approval refused on a
    conflict; [rejected] reachable from the open states whatever the
    conflicts; the schedule change on approval; re-approval of an approved
    request a no-op. *)
Definition transitionRequest (db : DB) (now : Z) (id : ObjectId)
    (target : RequestState) : DB * (EngineError + ScheduleRequest.t) :=
  match scheduleRequests db !! id with
  | None => (db, inl NotFound)
  | Some r =>
      let checked :=
        match target with UnderReview | Approved => true | _ => false end in
      let r1 := if checked then evaluateRequest db id r else r in
      match (if checked then ScheduleRequest_save db id r1 else Ok db) with
      | Err e => (db, inl (StoreFailure e))
      | Ok db1 =>
          match target with
          | Approved =>
              if ScheduleRequest.conflict_flag r1
              then (db1, inl (ConflictDetected (ScheduleRequest.conflicts r1)))
              else match state_of (ScheduleRequest.status r1) with
                   | Some Approved => (db1, inr r1)
                   | Some Pending | Some UnderReview =>
                       commitState db db1 now id r1 Approved
                   | _ => (db1, inl IllegalTransition)
                   end
          | Rejected =>
              match state_of (ScheduleRequest.status r1) with
              | Some Pending | Some UnderReview =>
                  commitState db db1 now id r1 Rejected
              | _ => (db1, inl IllegalTransition)
              end
          | UnderReview =>
              match state_of (ScheduleRequest.status r1) with
              | Some Pending => commitState db db1 now id r1 UnderReview
              | _ => (db1, inl IllegalTransition)
              end
          | Pending => (db1, inl IllegalTransition)
          end
      end
  end.

(** Modelled from the spec: the Enrollment records of the store for the
    pair (studentId, scheduleId). *)
Definition enrollmentsFor (db : DB) (studentId scheduleId : ObjectId)
  : gmap string Enrollment.t :=
  filter (λ p, Enrollment.studentId p.2 = Some studentId
               ∧ Enrollment.scheduleId p.2 = Some scheduleId)
         (enrollments db).

(** Modelled from the spec: the enrolled-count view, the single
    [studentsEnrolled] counter of the course, goes up by one. *)
Definition countEnrollment (db : DB) (courseId : option ObjectId) : DB :=
  match courseId with
  | Some cid =>
      match courses db !! cid with
      | Some c =>
          set_courses
            (<[cid := Course.set_studentsEnrolled
                        (Some (default 0 (Course.studentsEnrolled c) + 1)) c]>
               (courses db)) db
      | None => db
      end
  | None => db
  end.

(** Modelled from the spec: [enroll(studentId, scheduleId) ->
    EnrollmentRecord | DuplicateError] (section 4.4): a DuplicateError and
    no record when the pair is enrolled already; else an Enrollment for the
    schedule's course and instructor, saved as a new document under
    [newId] (the hook fills the denormalised fields), and the counter. *)
Definition enroll (db : DB) (newId : ObjectId) (studentId scheduleId : ObjectId)
  : DB * (EngineError + Enrollment.t) :=
  if bool_decide (enrollmentsFor db studentId scheduleId = ∅) then
    let sched := schedules db !! scheduleId in
    let stu := students db !! studentId in
    let e := Enrollment.mk (Some studentId) (sched ≫= Schedule.courseId)
               (Some scheduleId) (sched ≫= Schedule.instructorId)
               (stu ≫= Student.year) (stu ≫= Student.section)
               None None None None None in
    match Enrollment_save db (mkCtx true []) newId e with
    | Ok db1 =>
        match enrollments db1 !! newId with
        | Some e' => (countEnrollment db1 (Enrollment.courseId e'), inr e')
        | None => (db, inl NotFound)
        end
    | Err err => (db, inl (StoreFailure err))
    end
  else (db, inl DuplicateEnrollmentError).

(** ** Well-formedness and resolution of references *)

(** A User as the User schema stores it: [name] is required, and its
    [trim: true] setter has trimmed it. *)
Definition User_stored (trim : string → string) (u : User.t) : Prop :=
  truthy (User.name u) = true ∧ trim <$> User.name u = User.name u.

(** The Instructor reference does not resolve: no such Instructor, or its
    User is gone. *)
Definition instructor_unresolved (db : DB) (ref : option ObjectId) : Prop :=
  ∃ i, ref = Some i ∧
       ∀ ins, instructors db !! i = Some ins →
              populate_user db (Instructor.userId ins) = None.

(** The Student reference does not resolve: no such Student, or its User is
    gone. *)
Definition student_unresolved (db : DB) (ref : option ObjectId) : Prop :=
  ∃ i, ref = Some i ∧
       ∀ st, students db !! i = Some st →
             populate_user db (Student.userId st) = None.

(** The Course reference does not resolve. *)
Definition course_unresolved (db : DB) (ref : option ObjectId) : Prop :=
  ∃ i, ref = Some i ∧ courses db !! i = None.

(** ** Sample data: the documents of [seedDatabase] *)

Definition seed_users : gmap string User.t :=
  <["u-admin" := User.mk (Some "Dr. Sarah Johnson") (Some "admin@university.edu")
                   (Some "admin") (Some "Administration") None]>
  (<["u-instr" := User.mk (Some "Prof. Michael Chen") (Some "instructor@university.edu")
                    (Some "instructor") (Some "Computer Science") None]>
  (<["u-stu" := User.mk (Some "Alex Smith") (Some "student@university.edu")
                  (Some "student") (Some "Computer Science") (Some "A")]> ∅)).

Definition seed_cs101 : Course.t :=
  Course.mk (Some "CS101") (Some "Introduction to Computer Science")
    (Some "Computer Science") (Some 3) (Some "lecture") (Some 90) (Some 45)
    (Some 50) ["projector"; "computer"] None None (Some 0).

Definition seed_monday : Schedule.t :=
  Schedule.mk (Some "c-cs101") (Some "i-chen") (Some "r-a101") (Some "Monday")
    (Some "09:00") (Some "10:30") (Some "First Term") (Some 2024)
    (Some "2024-2025") (Some "published") [] None None None None None
    (Some 0) (Some 0).

Definition seed_db : DB :=
  mkDB seed_users
    (<["i-chen" := Instructor.mk (Some "u-instr") (Some 20)
                     ["Computer Science"; "Programming"; "Software Engineering"]]> ∅)
    (<["st-alex" := Student.mk (Some "u-stu") (Some "STU1") (Some "Computer Science")
                      (Some "2") (Some "A") ["c-cs101"]]> ∅)
    (<["c-cs101" := seed_cs101]> ∅)
    (<["s-monday" := seed_monday]> ∅)
    ∅ ∅ true.

(** [String.prototype.trim] on ASCII strings: the white space and line
    terminators below U+0080 are the space and U+0009 to U+000D. *)
Definition is_space (a : ascii) : bool :=
  let n := N_of_ascii a in
  (N.eqb n 32 || (N.leb 9 n && N.leb n 13))%N.

Fixpoint trim_left (s : string) : string :=
  match s with
  | String a s' => if is_space a then trim_left s' else s
  | EmptyString => EmptyString
  end.

Fixpoint trim_right (s : string) : string :=
  match s with
  | String a s' =>
      let t := trim_right s' in
      if is_space a && String.eqb t "" then EmptyString else String a t
  | EmptyString => EmptyString
  end.

Definition ascii_trim (s : string) : string := trim_right (trim_left s).

(** The seeded course CS101 with a given instructor reference and
    denormalised name. *)
Definition course_with_instructor (i : option ObjectId) (n : option string)
  : Course.t :=
  Course.mk (Some "CS101") (Some "Introduction to Computer Science")
    (Some "Computer Science") (Some 3) (Some "lecture") (Some 90) (Some 45)
    (Some 50) ["projector"; "computer"] i n (Some 0).

(** A second Monday class in the room of the seeded one, 10:00 to 11:00,
    as a caller hands it to [new Schedule]: no status, given conflicts. *)
Definition monday_ten (conflicts : list string) : Schedule.t :=
  Schedule.mk (Some "c-cs101") (Some "i-chen") (Some "r-a101") (Some "Monday")
    (Some "10:00") (Some "11:00") (Some "First Term") (Some 2024)
    (Some "2024-2025") None conflicts None None None None None None None.

(** A pending request of the seeded instructor for Monday 10:00 to 11:00 in
    the room of the seeded Monday class. *)
Definition monday_request : ScheduleRequest.t :=
  ScheduleRequest.mk (Some "i-chen") (Some "c-cs101") None (Some "room_change")
    (Some "r-a101") None (Some "Monday") (Some "10:00") (Some "11:00")
    (Some "First Term") (Some 2024) (Some "quiz") None false [] None None None
    None (Some "Quiz in the lecture room") (Some "pending") (Some 3) (Some 3).

Definition request_db : DB :=
  set_scheduleRequests (<["q-1" := monday_request]> ∅) seed_db.

(** Claims for the touching scenario: A ends at 10:00, B starts at 10:00,
    same room, instructor and day. *)
Definition claim_A : Claim :=
  mkClaim "A" (Some "r-a101") (Some "i-chen") (Some "Monday") None
    (Some "09:00") (Some "10:00") (Some "published") 1.

Definition claim_B : Claim :=
  mkClaim "B" (Some "r-a101") (Some "i-chen") (Some "Monday") None
    (Some "10:00") (Some "11:00") (Some "published") 2.

(** The Enrollment document of the seeded student in the seeded Monday
    class, as a caller builds it. *)
Definition alex_monday : Enrollment.t :=
  Enrollment.mk (Some "st-alex") (Some "c-cs101") (Some "s-monday")
    (Some "i-chen") (Some "2") (Some "A") None None None None (Some 7).

(** The record that [enroll] creates for the seeded student in the seeded
    Monday class, and the store after it. *)
Definition alex_enrolled : Enrollment.t :=
  Enrollment.mk (Some "st-alex") (Some "c-cs101") (Some "s-monday")
    (Some "i-chen") (Some "2") (Some "A") (Some "Computer Science")
    (Some "Alex Smith") (Some "Introduction to Computer Science")
    (Some "CS101") None.

Definition seed_after_enroll : DB :=
  (enroll seed_db "e-1" "st-alex" "s-monday").1.



(** Three rows of the table and a heap that holds them as the state array
    at address 0. *)
Definition row (id name yearLevel section : string) : EnrolledStudent :=
  mkEnrolledStudent id "st" name yearLevel section "BSIT" "c-cs101" "CS101"
    "Introduction to Computer Science" "s-monday" "Prof. Michael Chen"
    "Monday" "09:00" "10:30" "First Term" "2024-2025".

Definition sample_rows : list EnrolledStudent :=
  [row "e3" "Cruz" "2" "B"; row "e1" "Reyes" "1" "A"; row "e2" "Abad" "2" "B"].

Definition sample_heap : gmap nat (list EnrolledStudent) :=
  <[0%nat := sample_rows]> ∅.

(** ** Invariants of the store *)

(** No two stored courses share a [code]: what the unique index is for. *)
Definition codes_unique (db : DB) : Prop :=
  ∀ i j ci cj,
    courses db !! i = Some ci → courses db !! j = Some cj →
    Course.code ci = Course.code cj → i = j.

(** Every stored document passes the validators of its schema. *)
Definition store_valid (db : DB) : Prop :=
  map_Forall (λ _ c, Course_invalid_paths c = []) (courses db) ∧
  map_Forall (λ _ s, Schedule_invalid_paths s = []) (schedules db) ∧
  map_Forall (λ _ e, Enrollment_invalid_paths e = []) (enrollments db) ∧
  map_Forall (λ _ r, ScheduleRequest_invalid_paths r = []) (scheduleRequests db).

(** The seeded course MATH201. *)
Definition seed_math201 : Course.t :=
  Course.mk (Some "MATH201") (Some "Calculus II") (Some "Mathematics") (Some 4)
    (Some "lecture") (Some 75) (Some 60) (Some 80) ["whiteboard"; "projector"]
    None None (Some 0).

(** ** Connecting ([initializeDatabase], [getConnection])

    What the function does to the world is a trace of events; what the
    world answers is given: the outcome of each call of [mongoose.connect]
    (by the number of the attempt, from 0), of the ping and of
    [seedDatabase]. *)

Inductive InitEvent :=
  | EvConnect        (* mongoose.connect(...) *)
  | EvWait           (* the two seconds before the next attempt *)
  | EvPing           (* mongoose.connection.db.admin().ping() *)
  | EvSeed.          (* seedDatabase() *)

Inductive InitError :=
  | ConnectFailed (attempt : nat)   (* the error of that attempt, rethrown *)
  | PingFailed
  | SeedFailed
  | NotInitialized.                 (* thrown by getConnection *)

Record World := mkWorld {
  connectOk : nat → bool;
  pingOk : bool;
  seedOk : bool }.

(** The retry loop, entered with [retries] left before attempt number
    [attempt]: the events, and the attempt whose error is thrown, if any. *)
Fixpoint connectLoop (w : World) (retries attempt : nat)
  : list InitEvent * option nat :=
  match retries with
  | O => ([], None)
  | S r =>
      if connectOk w attempt then ([EvConnect], None)
      else match r with
           | O => ([EvConnect], Some attempt)
           | S _ =>
               let '(evs, thrown) := connectLoop w r (S attempt) in
               (EvConnect :: EvWait :: evs, thrown)
           end
  end.

(** [initializeDatabase()], from the flag [isConnected]: the flag after the
    call, the events, and the error thrown or the connection returned. *)
Definition initializeDatabase (isConnected : bool) (w : World)
  : bool * list InitEvent * (InitError + unit) :=
  if isConnected then (true, [], inr ())
  else
    match connectLoop w 3 0 with
    | (evs, Some a) => (false, evs, inl (ConnectFailed a))
    | (evs, None) =>
        if negb (pingOk w) then (true, (evs ++ [EvPing])%list, inl PingFailed)
        else if negb (seedOk w) then (true, (evs ++ [EvPing; EvSeed])%list, inl SeedFailed)
        else (true, (evs ++ [EvPing; EvSeed])%list, inr ())
    end.

(** [getConnection()]. *)
Definition getConnection (isConnected : bool) : InitError + unit :=
  if isConnected then inr () else inl NotInitialized.

Global Instance InitEvent_eq_dec : EqDecision InitEvent.
Proof. solve_decision. Defined.

(** How often an event occurs in a trace. *)
Definition occurrences (ev : InitEvent) (evs : list InitEvent) : nat :=
  length (filter (λ e, e = ev) evs).


(** A world that connects at once and whose seeding fails. *)
Definition seed_fails_world : World := mkWorld (λ _, true) true false.

(** ** Values of API responses

    The front end handles the responses of the API as [any]: a parsed JSON
    value, or [undefined] for a property that is absent.  Numbers are the
    integers. *)

Local Set Warnings "-register-all".

Inductive JSON :=
  | JUndefined
  | JNull
  | JBool (b : bool)
  | JNum (n : Z)
  | JStr (s : string)
  | JArr (items : list JSON)
  | JObj (fields : list (string * JSON)).

(** Truthiness: [undefined], [null], [false], [0] and [''] are falsy. *)
Definition jtruthy (v : JSON) : bool :=
  match v with
  | JUndefined | JNull => false
  | JBool b => b
  | JNum n => negb (Z.eqb n 0)
  | JStr s => negb (String.eqb s "")
  | JArr _ | JObj _ => true
  end.

(** [a || b] and [a && b]. *)
Definition jor (a b : JSON) : JSON := if jtruthy a then a else b.
Definition jand (a b : JSON) : JSON := if jtruthy a then b else a.

Infix "|||" := jor (at level 50, left associativity).

(** The value of key [k] in the fields of an object; the last one wins, as
    in [JSON.parse]. *)
Fixpoint field (k : string) (fs : list (string * JSON)) : option JSON :=
  match fs with
  | [] => None
  | (k', v) :: fs' =>
      match field k fs' with
      | Some x => Some x
      | None => if String.eqb k k' then Some v else None
      end
  end.

(** [v.k] for a [v] that is neither [undefined] nor [null]: the property of
    an object, [undefined] on a primitive or an array (none of the keys
    read below is a property of strings, numbers or arrays). *)
Definition prop (v : JSON) (k : string) : JSON :=
  match v with
  | JObj fs => default JUndefined (field k fs)
  | _ => JUndefined
  end.

(** [v?.k]. *)
Definition optProp (v : JSON) (k : string) : JSON := prop v k.

(** Whether reading a property of [v] throws a TypeError. *)
Definition nullish (v : JSON) : bool :=
  match v with JUndefined | JNull => true | _ => false end.

(** [v.map(f)]: throws ([None]) unless [v] is an array, and when [f]
    throws on an element. *)
Definition jmap (f : JSON → option JSON) (v : JSON) : option (list JSON) :=
  match v with
  | JArr items => mapM f items
  | _ => None
  end.

(** [a === b] against a string. *)
Definition strictEqStr (v : JSON) (s : string) : bool :=
  match v with JStr x => String.eqb x s | _ => false end.

(** *** Rows of enrolled students ([loadEnrolledStudents], the callback of
    [enrollmentsList.map]) *)

Definition normalizeEnrollment (e : JSON) : option JSON :=
  if nullish e then None else
  let student := prop e "studentId" ||| prop e "student" ||| JObj [] in
  let studentUser := prop student "userId" ||| prop student "user" ||| JObj [] in
  let course := prop e "courseId" ||| prop e "course" ||| JObj [] in
  let schedule := prop e "scheduleId" ||| prop e "schedule" ||| JObj [] in
  let instructor := prop e "instructorId" ||| prop schedule "instructor" ||| JObj [] in
  let instructorUser := prop instructor "userId" ||| prop instructor "user" ||| JObj [] in
  let scheduleId := prop schedule "_id" ||| prop schedule "id" ||| prop e "scheduleId" in
  Some (JObj [
    ("id", prop e "_id" ||| prop e "id" ||| JStr "");
    ("studentId",
       prop student "_id" ||| prop student "id" ||| prop e "studentId" ||| JStr "");
    ("studentName",
       prop studentUser "name" ||| prop student "name" ||| prop e "studentName"
       ||| JStr "Unknown Student");
    ("yearLevel",
       prop student "yearLevel" ||| prop student "year"
       ||| prop studentUser "yearLevel" ||| prop e "yearLevel" ||| JStr "1");
    ("section",
       prop student "section" ||| prop studentUser "section" ||| prop e "section"
       ||| JStr "");
    ("department",
       prop studentUser "department" ||| prop student "department"
       ||| prop e "department" ||| JStr "");
    ("courseId",
       prop course "_id" ||| prop course "id" ||| prop e "courseId" ||| JStr "");
    ("courseCode",
       prop course "code" ||| prop course "courseCode" ||| prop e "courseCode"
       ||| JStr "");
    ("courseName",
       prop course "name" ||| prop course "courseName" ||| prop e "courseName"
       ||| JStr "");
    ("scheduleId", scheduleId ||| JStr "");
    ("instructorName",
       prop instructorUser "name" ||| prop instructor "name"
       ||| prop e "instructorName" ||| JStr "");
    ("dayOfWeek", prop schedule "dayOfWeek" ||| prop e "dayOfWeek" ||| JStr "");
    ("startTime", prop schedule "startTime" ||| prop e "startTime" ||| JStr "");
    ("endTime", prop schedule "endTime" ||| prop e "endTime" ||| JStr "");
    ("semester", prop schedule "semester" ||| prop e "semester" ||| JStr "");
    ("academicYear",
       prop schedule "academicYear" ||| prop schedule "year"
       ||| prop e "academicYear" ||| JStr "")]).

Definition enrolledStudentKeys : list string :=
  ["id"; "studentId"; "studentName"; "yearLevel"; "section"; "department";
   "courseId"; "courseCode"; "courseName"; "scheduleId"; "instructorName";
   "dayOfWeek"; "startTime"; "endTime"; "semester"; "academicYear"].

(** *** The enroll panel ([loadEnrollmentLookups]) *)

(** The callback of [schedulesList.map]. *)
Definition normalizeLookupSchedule (s : JSON) : option JSON :=
  if nullish s then None else
  let course := prop s "course" ||| JObj [] in
  let instructor := prop s "instructor" ||| JObj [] in
  let instructorUser := prop instructor "user" ||| prop instructor "userId" ||| JObj [] in
  let room := prop s "room" ||| JObj [] in
  let scheduleId := prop s "_id" ||| prop s "id" in
  Some (JObj [
    ("_id", scheduleId);
    ("courseId", prop course "_id" ||| prop course "id" ||| prop s "courseId" ||| JStr "");
    ("courseCode", prop course "code" ||| prop s "courseCode" ||| JStr "");
    ("courseName", prop course "name" ||| prop s "courseName" ||| JStr "");
    ("instructorId",
       prop instructor "_id" ||| prop instructor "id" ||| prop s "instructorId"
       ||| JStr "");
    ("instructorName",
       prop instructorUser "name" ||| prop instructor "name"
       ||| prop s "instructorName" ||| JStr "");
    ("roomName", prop room "name" ||| prop s "roomName" ||| JStr "");
    ("dayOfWeek", prop s "dayOfWeek" ||| prop s "day" ||| JStr "");
    ("startTime", prop s "startTime" ||| prop s "start" ||| JStr "");
    ("endTime", prop s "endTime" ||| prop s "end" ||| JStr "");
    ("semester", prop s "semester" ||| prop s "academicTerm" ||| JStr "");
    ("year", prop s "year" ||| prop s "academicYear" ||| JStr "");
    ("active", JBool (negb (strictEqStr (prop s "status") "canceled")))]).

(** The callback of [studentsList.map]. *)
Definition normalizeStudent (st : JSON) : option JSON :=
  if nullish st then None else
  let user := prop st "user" ||| prop st "userId" ||| JObj [] in
  Some (JObj [
    ("docId", prop st "_id" ||| prop st "id" ||| JStr "");
    ("userId", prop user "_id" ||| prop user "id" ||| prop st "userId" ||| JNull);
    ("name", prop user "name" ||| prop st "name" ||| JStr "");
    ("year",
       prop st "year" ||| prop st "yearLevel" ||| prop user "year"
       ||| prop user "yearLevel" ||| JStr "");
    ("section", prop st "section" ||| prop user "section" ||| JStr "");
    ("department", prop user "department" ||| prop st "department" ||| JStr "");
    ("email", prop user "email" ||| prop st "email" ||| JStr "")]).

(** [normalizedStudents.filter(s => s.docId && s.name)]. *)
Definition validStudents (normalized : list JSON) : list JSON :=
  filter (λ s, jtruthy (jand (prop s "docId") (prop s "name")) = true) normalized.

(** The state of the panel that the function writes. *)
Record PanelState := mkPanel {
  p_schedules : list JSON;
  p_allStudents : list JSON;
  p_toasts : list string;
  p_loading : bool }.

Definition setSchedules (v : list JSON) (st : PanelState) : PanelState :=
  mkPanel v (p_allStudents st) (p_toasts st) (p_loading st).

Definition setAllStudents (v : list JSON) (st : PanelState) : PanelState :=
  mkPanel (p_schedules st) v (p_toasts st) (p_loading st).

Definition toastError (msg : string) (st : PanelState) : PanelState :=
  mkPanel (p_schedules st) (p_allStudents st) (p_toasts st ++ [msg])%list (p_loading st).

Definition setLoadingEnrollPanel (b : bool) (st : PanelState) : PanelState :=
  mkPanel (p_schedules st) (p_allStudents st) (p_toasts st) b.

(** The first half of the [try] block: the state, and whether it ran to
    its end ([false]: it threw). *)
Definition processSchedules (schedulesResponse : JSON) (st : PanelState)
  : PanelState * bool :=
  if jtruthy (optProp schedulesResponse "success") then
    match jmap normalizeLookupSchedule
            (prop schedulesResponse "schedules" ||| JArr []) with
    | Some normalized => (setSchedules normalized st, true)
    | None => (st, false)
    end
  else
    (setSchedules [] (toastError "Failed to load schedules. Please try again." st),
     true).

(** The second half of the [try] block. *)
Definition processStudents (studentsResponse : JSON) (st : PanelState)
  : PanelState * bool :=
  if jtruthy (jand (optProp studentsResponse "success")
                   (prop studentsResponse "students")) then
    match jmap normalizeStudent (prop studentsResponse "students") with
    | Some normalized =>
        let valid := validStudents normalized in
        let st' :=
          match valid with
          | [] => toastError "No valid student records found. Please check the data." st
          | _ => st
          end in
        (setAllStudents valid st', true)
    | None => (st, false)
    end
  else
    (setAllStudents [] (toastError "Failed to load students. Please try again." st),
     true).

(** [loadEnrollmentLookups], given what the two requests resolved to
    ([null] for a request that failed, by its [.catch]). *)
Definition loadEnrollmentLookups (st : PanelState)
    (schedulesResponse studentsResponse : JSON) : PanelState :=
  let caught :=
    toastError
      "Failed to load enrollment data. Please check your connection and try again." in
  let st0 := setLoadingEnrollPanel true st in
  let '(st1, ok1) := processSchedules schedulesResponse st0 in
  let st3 :=
    if ok1 then
      let '(st2, ok2) := processStudents studentsResponse st1 in
      if ok2 then st2 else caught st2
    else caught st1 in
  setLoadingEnrollPanel false st3.

(** A student as [allStudents] holds it: the object of [normalizeStudent],
    with a [docId] and a [name]; it has no [_id] and no [id]. *)
Definition studentOfPanel (s : JSON) : Prop :=
  jtruthy (prop s "docId") = true ∧ jtruthy (prop s "name") = true ∧
  prop s "_id" = JUndefined ∧ prop s "id" = JUndefined.

(** [v === false]. *)
Definition isFalse (v : JSON) : bool :=
  match v with JBool false => true | _ => false end.

(** The schedules offered in the select of the panel, before they are
    sorted: [schedules.filter(s => s.active !== false)]. *)
Definition activeSchedules (schedules : list JSON) : list JSON :=
  filter (λ s, isFalse (prop s "active") = false) schedules.

(** Responses for the examples: two students, one without an id, and two
    schedules, one canceled. *)
Definition students_response : JSON :=
  JObj [("success", JBool true);
        ("students", JArr [
           JObj [("_id", JStr "st-alex"); ("year", JStr "2"); ("section", JStr "2A");
                 ("userId", JObj [("_id", JStr "u-stu"); ("name", JStr "Alex Smith");
                                  ("department", JStr "BSIT")])];
           JObj [("name", JStr "No Id"); ("section", JStr "1B")]])].

Definition schedule_items : list JSON :=
  [JObj [("_id", JStr "s-monday"); ("courseCode", JStr "CS101");
         ("dayOfWeek", JStr "Monday"); ("status", JStr "published")];
   JObj [("_id", JStr "s-old"); ("courseCode", JStr "CS101");
         ("dayOfWeek", JStr "Sunday"); ("status", JStr "canceled")]].

Definition schedules_response : JSON :=
  JObj [("success", JBool true); ("schedules", JArr schedule_items)].

Definition normalized_schedule_items : list JSON :=
  default [] (mapM normalizeLookupSchedule schedule_items).

Definition empty_panel : PanelState := mkPanel [] [] [] false.

(** *** The filter effect and the selection *)

(** [s.charAt(0)]. *)
Definition charAt0 (s : string) : string :=
  match s with
  | String a _ => String a EmptyString
  | EmptyString => EmptyString
  end.

(** [l.filter(f)] for a predicate that may throw ([None]). *)
Fixpoint jfilter (f : JSON → option bool) (l : list JSON) : option (list JSON) :=
  match l with
  | [] => Some []
  | x :: l' =>
      b ← f x; r ← jfilter f l';
      Some (if b : bool then x :: r else r)
  end.

(** The receiver of a method of strings ([charAt], [trim],
    [localeCompare]): the call throws unless it is a string. *)
Definition asStringE (v : JSON) : option string :=
  match v with JStr s => Some s | _ => None end.

(** A student whose [section] and [department] are strings or falsy. *)
Definition textFields (s : JSON) : Prop :=
  is_Some (asStringE (prop s "section" ||| JStr "")) ∧
  is_Some (asStringE (prop s "department" ||| JStr "")).

Section FilterEffect.
(** [String.prototype.trim], [String.prototype.toLowerCase], and
    [String(v)] on the values that are not strings. *)
Context (trim toLowerCase : string → string) (stringOf : JSON → string).

(** [String(v)]. *)
Definition jString (v : JSON) : string :=
  match v with JStr s => s | _ => stringOf v end.

(** The predicate of [allStudents.filter] in the effect, for the three
    filters of the panel; it throws when [section] or [department] is a
    truthy value that is not a string. *)
Definition studentMatches (filterYearLevel filterSection filterDepartment : string)
    (s : JSON) : option bool :=
  let studentYear := jString (prop s "year" ||| prop s "yearLevel" ||| JStr "") in
  section ← asStringE (prop s "section" ||| JStr "");
  let sectionYear := charAt0 section in
  let yearMatches :=
    String.eqb filterYearLevel "all"
    || String.eqb studentYear filterYearLevel
    || String.eqb sectionYear filterYearLevel in
  let matchesSection :=
    String.eqb filterSection "all" || String.eqb (trim section) filterSection in
  department ← asStringE (prop s "department" ||| JStr "");
  let studentDept := trim department in
  let matchesDept :=
    String.eqb filterDepartment "all"
    || String.eqb (toLowerCase studentDept) (toLowerCase filterDepartment) in
  Some (yearMatches && matchesSection && matchesDept).

(** The effect on [allStudents] and the filters: the new [filteredStudents]
    and the new [selectedStudentIds], a Set in insertion order, from the
    previous one; [None] when the predicate throws. *)
Definition filterEffect (filterYearLevel filterSection filterDepartment : string)
    (allStudents : list JSON) (prev : list string)
  : option (list JSON * list string) :=
  result ← jfilter (studentMatches filterYearLevel filterSection filterDepartment)
              allStudents;
  Some (result,
        filter (λ id, existsb (λ r, strictEqStr (prop r "_id") id
                                     || strictEqStr (prop r "id") id) result = true)
               prev).

End FilterEffect.

(** [toggleSelectStudent], on the Set as the list of its elements in
    insertion order. *)
Definition toggleSelectStudent (prev : list string) (studentId : string)
  : list string :=
  if bool_decide (studentId ∈ prev)
  then filter (λ x, x ≠ studentId) prev
  else (prev ++ [studentId])%list.

(** *** Enrolling the selection ([handleEnrollSelected]) *)

(** What the handler does, in order. *)
Inductive EnrollEvent :=
  | SetEnrolling (b : bool)
  | ToastError (msg : JSON)
  | ToastSuccess (msg : string)
  | CreateEnrollment (scheduleId courseId instructorId : JSON) (students : list string)
  | LoadEnrolledStudents
  | LoadEnrollmentLookups
  | ClearSelected.

(** The response of [apiClient.createEnrollment]: [success] and [message]
    as they come, [created] and [conflicts] arrays when they are present,
    as the API sends them. *)
Record EnrollResponse := mkEnrollResponse {
  r_success : JSON;
  r_message : JSON;
  r_created : option (list JSON);
  r_conflicts : option (list JSON) }.

(** What the call does: it throws an error, or resolves to a response. *)
Inductive ApiOutcome :=
  | Threw (error : JSON)
  | Returned (res : EnrollResponse).

(** The feedback on a response: the toast, and the reload of the enrolled
    students after an enrollment. *)
Definition enrollFeedback (res : EnrollResponse) : list EnrollEvent :=
  let createdCount := length (default [] (r_created res)) in
  let conflictCount := length (default [] (r_conflicts res)) in
  if isFalse (r_success res)
  then [ToastError (r_message res ||| JStr "Enrollment failed")]
  else if (0 <? createdCount)%nat then
    [ToastSuccess
       (if (0 <? conflictCount)%nat
        then "Successfully enrolled " ++ pretty createdCount ++ " student(s). "
             ++ pretty conflictCount ++ " conflict(s) detected."
        else "Successfully enrolled " ++ pretty createdCount ++ " student(s)");
     LoadEnrolledStudents]
  else if (0 <? conflictCount)%nat then
    [ToastError (JStr ("Failed to enroll students: " ++ pretty conflictCount
                       ++ " conflict(s) detected."))]
  else [ToastError (JStr "No students were enrolled. Please try again.")].

(** [handleEnrollSelected], for the selected schedule ([None]: none), the
    selected student ids and the outcome of the API call, if it is made. *)
Definition handleEnrollSelected (selectedSchedule : option JSON)
    (selectedStudentIds : list string) (api : ApiOutcome) : list EnrollEvent :=
  SetEnrolling true ::
  match selectedSchedule with
  | None =>
      [ToastError (JStr "Please select a schedule to enroll students into");
       SetEnrolling false]
  | Some schedule =>
      match selectedStudentIds with
      | [] =>
          [ToastError (JStr "No students selected for enrollment");
           SetEnrolling false]
      | _ =>
          CreateEnrollment (prop schedule "_id") (prop schedule "courseId")
            (prop schedule "instructorId") selectedStudentIds ::
          match api with
          | Returned res =>
              (enrollFeedback res
               ++ [LoadEnrollmentLookups; ClearSelected; SetEnrolling false])%list
          | Threw error =>
              [ToastError (optProp error "message" ||| JStr "Failed to enroll students");
               SetEnrolling false]
          end
      end
  end.





(** *** The students under a schedule card *)

(** [0-9a-fA-F]. *)
Definition isHex (a : ascii) : bool :=
  let n := N_of_ascii a in
  ((N.leb 48 n && N.leb n 57) || (N.leb 97 n && N.leb n 102)
   || (N.leb 65 n && N.leb n 70))%N.

(** [s.replace(/[^0-9a-fA-F]/g, '')]. *)
Fixpoint hexOnly (s : string) : string :=
  match s with
  | String a s' => if isHex a then String a (hexOnly s') else hexOnly s'
  | EmptyString => EmptyString
  end.

Fixpoint allHex (s : string) : bool :=
  match s with
  | String a s' => isHex a && allHex s'
  | EmptyString => true
  end.

Section Card.
Context (localeCompare : string → string → Z).

(** The rows under the card of the schedule [scheduleId]: the enrolled
    students whose normalised schedule id is the normalised id of the card,
    in table order. *)
Definition cardRows (enrolledStudents : list EnrolledStudent) (scheduleId : string)
  : list EnrolledStudent :=
  js_sort (sortEnrolledStudents localeCompare)
    (filter (λ student,
       String.eqb (hexOnly (es_scheduleId student)) (hexOnly scheduleId) = true)
       enrolledStudents).

End Card.

(** The enrollments from position [n] on that the view files under the
    key [k]. *)
Fixpoint filedUnder (k : MapKey) (n : nat) (es : list EnrollmentJson) : nat :=
  match es with
  | [] => 0
  | e :: es' =>
      ((if bool_decide (scheduleKey n e = Some k) then 1 else 0)
       + filedUnder k (S n) es')%nat
  end.

(** A schedule object of the panel, as [normalizeLookupSchedule] builds it
    for the seeded Monday class. *)
Definition monday_option : JSON :=
  JObj [("_id", JStr "s-monday"); ("courseId", JStr "c-cs101");
        ("courseCode", JStr "CS101"); ("instructorId", JStr "i-chen");
        ("dayOfWeek", JStr "Monday"); ("active", JBool true)].

(** [String.prototype.toLowerCase] on ASCII strings, and [String(v)] on the
    primitives that are not strings. *)
Definition lower (a : ascii) : ascii :=
  let n := N_of_ascii a in
  if (N.leb 65 n && N.leb n 90)%N then ascii_of_N (n + 32) else a.

Fixpoint ascii_lower (s : string) : string :=
  match s with
  | String a s' => String (lower a) (ascii_lower s')
  | EmptyString => EmptyString
  end.

Definition stringOfPrimitive (v : JSON) : string :=
  match v with
  | JUndefined => "undefined"
  | JNull => "null"
  | JBool true => "true"
  | JBool false => "false"
  | JNum n => pretty n
  | _ => ""
  end.

(** A row moved to another schedule. *)
Definition on_schedule (scheduleId : string) (r : EnrolledStudent) : EnrolledStudent :=
  mkEnrolledStudent (es_id r) (es_studentId r) (es_studentName r) (es_yearLevel r)
    (es_section r) (es_department r) (es_courseId r) (es_courseCode r)
    (es_courseName r) scheduleId (es_instructorName r) (es_dayOfWeek r)
    (es_startTime r) (es_endTime r) (es_semester r) (es_academicYear r).

(** ** The subjects view (CoursesManagement)

    *** Mapping the responses *)

Section Subjects.
(** [String(v)] on the values that are not strings, for the template
    literal of [time]. *)
Context (stringOf : JSON → string).

(** [(r?.subjects || r?.data || r || [])]. *)
Definition subjectsOf (r : JSON) : JSON :=
  optProp r "subjects" ||| optProp r "data" ||| r ||| JArr [].

(** The callback of [mapRes], in [loadAllYears]. *)
Definition mapResItem (s : JSON) : option JSON :=
  if nullish s then None else
  Some (JObj [
    ("_id", prop s "_id");
    ("subjectCode", prop s "subjectCode");
    ("description", prop s "description" ||| prop s "name" ||| JStr "");
    ("units", prop s "units");
    ("schoolYear", prop s "schoolYear");
    ("semester", prop s "semester");
    ("instructorName", prop s "instructorName");
    ("day", prop s "day" ||| prop s "dayOfWeek");
    ("time",
       prop s "time"
       ||| (if jtruthy (jand (prop s "startTime") (prop s "endTime"))
            then JStr (jString stringOf (prop s "startTime") ++ "-"
                       ++ jString stringOf (prop s "endTime"))
            else JUndefined));
    ("yearLevel", prop s "yearLevel")]).

(** The callback of the mapping in [reloadYear]. *)
Definition reloadItem (s : JSON) : option JSON :=
  if nullish s then None else
  Some (JObj [
    ("_id", prop s "_id");
    ("subjectCode", prop s "subjectCode");
    ("description", prop s "description" ||| prop s "name" ||| JStr "");
    ("units", prop s "units");
    ("schoolYear", prop s "schoolYear");
    ("semester", prop s "semester");
    ("instructorName", prop s "instructorName");
    ("day", prop s "day");
    ("time", prop s "time");
    ("yearLevel", prop s "yearLevel")]).

(** [mapRes]. *)
Definition mapRes (r : JSON) : option (list JSON) :=
  jmap mapResItem (subjectsOf r).

(** The state of the view. *)
Inductive YearLevel := Year1 | Year2 | Year3 | Year4.

Record SubjectsState := mkSubjects {
  subjectsByYear : YearLevel → list JSON;
  s_loading : bool;
  s_toasts : list string }.

(** [loadAllYears], given what the four requests came to ([None]: the
    request was rejected). *)
Definition loadAllYears (st : SubjectsState) (y1 y2 y3 y4 : option JSON)
  : SubjectsState :=
  let mapped :=
    r1 ← y1; r2 ← y2; r3 ← y3; r4 ← y4;
    l1 ← mapRes r1; l2 ← mapRes r2; l3 ← mapRes r3; l4 ← mapRes r4;
    Some (λ y, match y with
               | Year1 => l1 | Year2 => l2 | Year3 => l3 | Year4 => l4
               end) in
  match mapped with
  | Some byYear => mkSubjects byYear false (s_toasts st)
  | None =>
      mkSubjects (subjectsByYear st) false
        (s_toasts st ++ ["Failed to load subjects"])%list
  end.

Global Instance YearLevel_eq_dec : EqDecision YearLevel.
Proof. solve_decision. Defined.

(** [reloadYear(year)], given what the request came to: on any failure the
    state is as it was, and the error goes to the console only. *)
Definition reloadYear (st : SubjectsState) (year : YearLevel) (res : option JSON)
  : SubjectsState :=
  match res ≫= λ r, jmap reloadItem (subjectsOf r) with
  | Some l =>
      mkSubjects (λ y, if decide (y = year) then l else subjectsByYear st y)
        (s_loading st) (s_toasts st)
  | None => st
  end.

(** The Schedule cell of a row: [s.day && s.time ? `${s.day} • ${s.time}`
    : '-'], as whether the cell shows a schedule. *)
Definition showsSchedule (item : JSON) : bool :=
  jtruthy (jand (prop item "day") (prop item "time")).

End Subjects.

(** A subject as the API may send it, with [dayOfWeek], [startTime] and
    [endTime] in place of [day] and [time]. *)
Definition subject_by_times : JSON :=
  JObj [("_id", JStr "sub-1"); ("subjectCode", JStr "CS101");
        ("description", JStr "Introduction to Computer Science");
        ("dayOfWeek", JStr "Monday"); ("startTime", JStr "09:00");
        ("endTime", JStr "10:30"); ("yearLevel", JStr "1")].

(** A state of the view with one row per year level, loading. *)
Definition initial_subjects : SubjectsState :=
  mkSubjects (λ _, [subject_by_times]) true [].

(** A response that has its rows under a key the view does not read. *)
Definition items_response : JSON :=
  JObj [("items", JArr [subject_by_times])].

(** *** The order of the schedule select *)

(** [a === b] on values of responses: the primitives by value; two arrays
    or objects of a parsed response are never the same one. *)
Definition jStrictEq (a b : JSON) : bool :=
  match a, b with
  | JUndefined, JUndefined | JNull, JNull => true
  | JBool x, JBool y => Bool.eqb x y
  | JNum x, JNum y => Z.eqb x y
  | JStr x, JStr y => String.eqb x y
  | _, _ => false
  end.

Definition selectDays : list string :=
  ["Monday"; "Tuesday"; "Wednesday"; "Thursday"; "Friday"; "Saturday"].

(** [days.indexOf(s)] on a list of strings, from position [i]. *)
Fixpoint indexFrom (i : Z) (days : list string) (s : string) : Z :=
  match days with
  | [] => -1
  | d :: days' => if String.eqb d s then i else indexFrom (i + 1) days' s
  end.

(** [days.indexOf(v)]: [indexOf] compares with [===]. *)
Definition dayIndex (v : JSON) : Z :=
  match v with
  | JStr s => indexFrom 0 selectDays s
  | _ => -1
  end.

Section SelectOrder.
(** [String.prototype.localeCompare], and [String(v)] on the values that
    are not strings (the argument of [localeCompare] is converted). *)
Context (localeCompare : string → string → Z) (stringOf : JSON → string).

(** The comparator of the select: by course code, then by day of week; it
    throws ([None]) when the codes differ and the first is not a string. *)
Definition compareOptions (a b : JSON) : option Z :=
  if negb (jStrictEq (prop a "courseCode") (prop b "courseCode"))
  then code ← asStringE (prop a "courseCode");
       Some (localeCompare code (jString stringOf (prop b "courseCode")))
  else Some (dayIndex (prop a "dayOfWeek") - dayIndex (prop b "dayOfWeek")).

End SelectOrder.

(** * Properties *)

(** ** JavaScript values *)

Lemma truthy_Some s : s ≠ "" → truthy (Some s) = true.
Proof.
  intros Hs. unfold truthy. destruct (String.eqb_spec s ""); [congruence | done].
Qed.


(** ** The save paths *)

Lemma findById_up {D} db (coll : gmap string D) id :
  up db = true → findById db coll id = Ok (id ≫= λ i, coll !! i).
Proof. intros Hup. unfold findById. by rewrite Hup. Qed.

Lemma Course_pre_save_code trim db c c' :
  Course_pre_save trim db c = Ok c' → Course.code c' = Course.code c.
Proof.
  unfold Course_pre_save.
  destruct (Course.instructorId c) as [i|]; [|by intros [= <-]].
  destruct (findById db (instructors db) (Some i)) as [[ins|]|]; simpl;
    [|by intros [= <-]|done].
  destruct (populate_user db (Instructor.userId ins)) as [u|]; [|by intros [= <-]].
  destruct (truthy (User.name u)); by intros [= <-].
Qed.

Lemma Course_save_inv trim db id c db' :
  Course_save trim db id c = Ok db' →
  ∃ c', Course_pre_save trim db c = Ok c' ∧ up db = true ∧
        db' = set_courses (<[id := c']> (courses db)) db.
Proof.
  unfold Course_save.
  destruct (Course_invalid_paths c); [|done].
  destruct (Course_pre_save trim db c) as [c'|]; simpl; [|done].
  destruct (up db); simpl; [|done].
  destruct (Course_code_taken db id c'); [done|].
  intros [= <-]. eauto.
Qed.

Lemma Course_save_ok trim db id c c' :
  Course_invalid_paths c = [] → up db = true →
  Course_code_taken db id c = false →
  Course_pre_save trim db c = Ok c' →
  Course_save trim db id c = Ok (set_courses (<[id := c']> (courses db)) db).
Proof.
  intros Hv Hup Hfree Hhook. unfold Course_save.
  rewrite Hv, Hhook. simpl. rewrite Hup. simpl.
  assert (Course_code_taken db id c' = Course_code_taken db id c) as ->; [|by rewrite Hfree].
  unfold Course_code_taken. by rewrite (Course_pre_save_code _ _ _ _ Hhook).
Qed.

Lemma Course_pre_save_cleared trim db c :
  Course.instructorId c = None →
  Course_pre_save trim db c = Ok (Course.set_instructorName None c).
Proof. intros H. unfold Course_pre_save. by rewrite H. Qed.

Lemma Course_pre_save_resolved trim db c i ins u :
  up db = true →
  Course.instructorId c = Some i →
  instructors db !! i = Some ins →
  populate_user db (Instructor.userId ins) = Some u →
  truthy (User.name u) = true →
  Course_pre_save trim db c
  = Ok (Course.set_instructorName (trim <$> User.name u) c).
Proof.
  intros Hup Hi Hins Hu Hn. unfold Course_pre_save.
  rewrite Hi, (findById_up _ _ _ Hup). simpl. rewrite Hins, Hu, Hn. done.
Qed.

Lemma Course_pre_save_unresolved trim db c :
  up db = true →
  instructor_unresolved db (Course.instructorId c) →
  Course_pre_save trim db c = Ok c.
Proof.
  intros Hup (i & Hi & Hno). unfold Course_pre_save.
  rewrite Hi, (findById_up _ _ _ Hup). simpl.
  destruct (instructors db !! i) as [ins|] eqn:Hins; [|done].
  by rewrite (Hno ins).
Qed.

Lemma Enrollment_pre_save_keys db ctx e e' :
  Enrollment_pre_save db ctx e = Ok e' →
  Enrollment.studentId e' = Enrollment.studentId e ∧
  Enrollment.scheduleId e' = Enrollment.scheduleId e ∧
  Enrollment.courseId e' = Enrollment.courseId e.
Proof.
  unfold Enrollment_pre_save.
  destruct (isNew ctx || isModified ctx "studentId" || isModified ctx "courseId");
    [|by intros [= <-]].
  destruct (findById db (students db) (Enrollment.studentId e)) as [student|];
    simpl; [|done].
  set (e1 := match student with Some _ => _ | None => _ end).
  assert (Enrollment.studentId e1 = Enrollment.studentId e ∧
          Enrollment.scheduleId e1 = Enrollment.scheduleId e ∧
          Enrollment.courseId e1 = Enrollment.courseId e) as (H1 & H2 & H3).
  { subst e1. destruct student as [st|]; [|done].
    by destruct (populate_user db (Student.userId st)). }
  destruct (findById db (courses db) (Enrollment.courseId e1)) as [[c|]|];
    simpl; [| |done]; intros [= <-]; simpl; done.
Qed.

Lemma Enrollment_pre_save_up db ctx e :
  up db = true →
  ∃ e', Enrollment_pre_save db ctx e = Ok e' ∧
    (student_unresolved db (Enrollment.studentId e) →
       Enrollment.studentName e' = Enrollment.studentName e ∧
       Enrollment.department e' = Enrollment.department e) ∧
    (course_unresolved db (Enrollment.courseId e) →
       Enrollment.courseName e' = Enrollment.courseName e ∧
       Enrollment.courseCode e' = Enrollment.courseCode e).
Proof.
  intros Hup. unfold Enrollment_pre_save.
  destruct (isNew ctx || isModified ctx "studentId" || isModified ctx "courseId");
    [|by exists e].
  rewrite (findById_up _ _ _ Hup). simpl.
  set (student := Enrollment.studentId e ≫= λ i, students db !! i).
  set (e1 := match student with Some _ => _ | None => _ end).
  assert (Enrollment.courseId e1 = Enrollment.courseId e ∧
          Enrollment.courseName e1 = Enrollment.courseName e ∧
          Enrollment.courseCode e1 = Enrollment.courseCode e) as (Hc & Hcn & Hcc).
  { subst e1. destruct student as [st|]; [|done].
    by destruct (populate_user db (Student.userId st)). }
  assert (student_unresolved db (Enrollment.studentId e) → e1 = e) as Hst.
  { intros (i & Hi & Hno). subst e1 student. rewrite Hi. simpl.
    destruct (students db !! i) as [st|] eqn:Hs; [|done].
    by rewrite (Hno st). }
  rewrite (findById_up _ _ _ Hup). simpl.
  destruct (Enrollment.courseId e1 ≫= λ i, courses db !! i) as [c|] eqn:Hcourse.
  - eexists. split; [done|]. split.
    + intros Hu. by rewrite (Hst Hu).
    + intros (i & Hi & Hno). rewrite Hc, Hi in Hcourse. simpl in Hcourse. congruence.
  - eexists. split; [done|]. split.
    + intros Hu. by rewrite (Hst Hu).
    + done.
Qed.

Lemma Enrollment_save_ok db ctx id e e' :
  Enrollment_invalid_paths e = [] → up db = true →
  Enrollment_pre_save db ctx e = Ok e' →
  Enrollment_save db ctx id e
  = Ok (set_enrollments (<[id := e']> (enrollments db)) db).
Proof.
  intros Hv Hup Hhook. unfold Enrollment_save.
  rewrite Hv, Hhook. simpl. by rewrite Hup.
Qed.

Lemma Enrollment_save_inv db ctx id e db' :
  Enrollment_save db ctx id e = Ok db' →
  ∃ e', Enrollment_pre_save db ctx e = Ok e' ∧ up db = true ∧
        Enrollment_invalid_paths e = [] ∧
        db' = set_enrollments (<[id := e']> (enrollments db)) db.
Proof.
  unfold Enrollment_save.
  destruct (Enrollment_invalid_paths e); [|done].
  destruct (Enrollment_pre_save db ctx e) as [e'|]; simpl; [|done].
  destruct (up db); simpl; [|done].
  intros [= <-]. eauto.
Qed.

(** ** Course: denormalised instructor name (C5, C6, C7) *)

(** C5.  A Course saved with [instructorId] set to an Instructor whose User
    exists (a User as the schema stores it) is stored with [instructorName]
    equal to that User's [name]. *)
Theorem instructorName_is_linked_user_name
    (trim : string → string) db id c i ins u :
  Course_invalid_paths c = [] →
  up db = true →
  Course_code_taken db id c = false →
  Course.instructorId c = Some i →
  instructors db !! i = Some ins →
  populate_user db (Instructor.userId ins) = Some u →
  User_stored trim u →
  ∃ db' c', Course_save trim db id c = Ok db' ∧
            courses db' !! id = Some c' ∧
            Course.instructorName c' = User.name u.
Proof.
  intros Hv Hup Hfree Hi Hins Hu [Hname Htrim].
  pose proof (Course_pre_save_resolved trim db c i ins u Hup Hi Hins Hu Hname) as Hhook.
  eexists _, _. split; [by apply Course_save_ok|].
  split; [apply lookup_insert_eq|]. simpl. exact Htrim.
Qed.

Lemma instructorName_is_linked_user_name_witness :
  ∃ db' c',
    Course_save ascii_trim seed_db "c-cs101"
      (course_with_instructor (Some "i-chen") None) = Ok db' ∧
    courses db' !! "c-cs101" = Some c' ∧
    Course.instructorName c' = Some "Prof. Michael Chen".
Proof.
  apply (instructorName_is_linked_user_name ascii_trim seed_db "c-cs101"
           (course_with_instructor (Some "i-chen") None) "i-chen"
           (Instructor.mk (Some "u-instr") (Some 20)
              ["Computer Science"; "Programming"; "Software Engineering"])
           (User.mk (Some "Prof. Michael Chen") (Some "instructor@university.edu")
              (Some "instructor") (Some "Computer Science") None));
    try (vm_compute; reflexivity).
  split; vm_compute; reflexivity.
Defined.

(** C7.  A Course saved with [instructorId] cleared is stored with
    [instructorName] unset, whatever name it carried. *)
Theorem cleared_instructorId_clears_instructorName
    (trim : string → string) db id c :
  Course_invalid_paths c = [] →
  up db = true →
  Course_code_taken db id c = false →
  Course.instructorId c = None →
  ∃ db' c', Course_save trim db id c = Ok db' ∧
            courses db' !! id = Some c' ∧
            Course.instructorName c' = None ∧
            c' = Course.set_instructorName None c.
Proof.
  intros Hv Hup Hfree Hi.
  pose proof (Course_pre_save_cleared trim db c Hi) as Hhook.
  eexists _, _. split; [by apply Course_save_ok|].
  split; [apply lookup_insert_eq|]. done.
Qed.

Lemma cleared_instructorId_clears_instructorName_witness :
  ∃ db' c',
    Course_save ascii_trim seed_db "c-cs101"
      (course_with_instructor None (Some "Prof. Michael Chen")) = Ok db' ∧
    courses db' !! "c-cs101" = Some c' ∧
    Course.instructorName c' = None ∧
    c' = Course.set_instructorName None
           (course_with_instructor None (Some "Prof. Michael Chen")).
Proof.
  apply (cleared_instructorId_clears_instructorName ascii_trim seed_db "c-cs101"
           (course_with_instructor None (Some "Prof. Michael Chen")));
    vm_compute; reflexivity.
Defined.

(** C6, as the design document states it, fails: a Course whose
    [instructorId] names no Instructor is saved with the [instructorName] it
    carried, not with the name unset. *)
Lemma unresolved_reference_unsets_fields_counterexample :
  ¬ (∀ (trim : string → string) db id c db',
       instructor_unresolved db (Course.instructorId c) →
       Course_save trim db id c = Ok db' →
       ∃ c', courses db' !! id = Some c' ∧ Course.instructorName c' = None).
Proof.
  intros H.
  destruct (H ascii_trim seed_db "c-cs101"
              (course_with_instructor (Some "i-gone") (Some "Prof. Michael Chen"))
              (set_courses
                 (<["c-cs101" := course_with_instructor (Some "i-gone")
                                   (Some "Prof. Michael Chen")]> (courses seed_db))
                 seed_db))
    as (c' & Hc' & Hname).
  - exists "i-gone". split; [done|]. intros ins Hins. vm_compute in Hins. done.
  - vm_compute. reflexivity.
  - simpl in Hc'. rewrite lookup_insert_eq in Hc'. injection Hc' as <-. done.
Qed.

(** C6, amended.  When the reference of a Course or of an Enrollment does
    not resolve, the save does not abort: the document is written, and the
    denormalised fields of that reference are stored as they were before
    the save (unset when they were unset). *)
Theorem unresolved_reference_keeps_fields (trim : string → string) db :
  up db = true →
  (∀ id c,
     Course_invalid_paths c = [] →
     Course_code_taken db id c = false →
     instructor_unresolved db (Course.instructorId c) →
     Course_save trim db id c = Ok (set_courses (<[id := c]> (courses db)) db)) ∧
  (∀ ctx id e,
     Enrollment_invalid_paths e = [] →
     ∃ e', Enrollment_save db ctx id e
           = Ok (set_enrollments (<[id := e']> (enrollments db)) db) ∧
       (student_unresolved db (Enrollment.studentId e) →
          Enrollment.studentName e' = Enrollment.studentName e ∧
          Enrollment.department e' = Enrollment.department e) ∧
       (course_unresolved db (Enrollment.courseId e) →
          Enrollment.courseName e' = Enrollment.courseName e ∧
          Enrollment.courseCode e' = Enrollment.courseCode e)).
Proof.
  intros Hup. split.
  - intros id c Hv Hfree Hun.
    apply Course_save_ok; [done..|]. by apply Course_pre_save_unresolved.
  - intros ctx id e Hv.
    destruct (Enrollment_pre_save_up db ctx e Hup) as (e' & Hhook & Hs & Hc).
    exists e'. split; [by apply Enrollment_save_ok|]. done.
Qed.

Lemma unresolved_reference_keeps_fields_witness :
  up seed_db = true ∧
  Course_save ascii_trim seed_db "c-cs101"
    (course_with_instructor (Some "i-gone") (Some "Prof. Michael Chen"))
  = Ok (set_courses
          (<["c-cs101" := course_with_instructor (Some "i-gone")
                            (Some "Prof. Michael Chen")]> (courses seed_db))
          seed_db).
Proof.
  split; [reflexivity|].
  apply (unresolved_reference_keeps_fields ascii_trim seed_db eq_refl).
  - vm_compute; reflexivity.
  - vm_compute; reflexivity.
  - exists "i-gone". split; [reflexivity|].
    intros ins Hins. vm_compute in Hins. discriminate Hins.
Defined.

(** ** Schedule: the timestamp hook and the published status (C9, C4) *)

Lemma Schedule_save_ok db now id s :
  Schedule_invalid_paths s = [] → up db = true →
  Schedule_save db now id s
  = Ok (set_schedules (<[id := Schedule_pre_save now s]> (schedules db)) db).
Proof. intros Hv Hup. unfold Schedule_save. by rewrite Hv, Hup. Qed.

Lemma Schedule_save_inv db now id s db' :
  Schedule_save db now id s = Ok db' →
  Schedule_invalid_paths s = [] ∧ up db = true ∧
  db' = set_schedules (<[id := Schedule_pre_save now s]> (schedules db)) db.
Proof.
  unfold Schedule_save.
  destruct (Schedule_invalid_paths s); [|done].
  destruct (up db); simpl; [|done].
  by intros [= <-].
Qed.

Lemma Schedule_restore_updatedAt now s :
  Schedule.set_updatedAt (Schedule.updatedAt s) (Schedule_pre_save now s) = s.
Proof. by destruct s. Qed.

(** C9.  A Schedule save stores the document with [updatedAt] set to the
    time of the save and every other field as the caller set it; the other
    schedules and the other collections are as they were. *)
Theorem schedule_save_changes_updatedAt_only db now id s :
  Schedule_invalid_paths s = [] →
  up db = true →
  ∃ db' s',
    Schedule_save db now id s = Ok db' ∧
    schedules db' !! id = Some s' ∧
    Schedule.updatedAt s' = Some now ∧
    Schedule.set_updatedAt (Schedule.updatedAt s) s' = s ∧
    (∀ id', id' ≠ id → schedules db' !! id' = schedules db !! id') ∧
    set_schedules (schedules db) db' = db.
Proof.
  intros Hv Hup. eexists _, _.
  split; [by apply Schedule_save_ok|].
  split; [apply lookup_insert_eq|].
  split; [done|].
  split; [apply Schedule_restore_updatedAt|].
  split; [|by destruct db].
  intros id' Hne. simpl. by rewrite lookup_insert_ne.
Qed.

Lemma schedule_save_changes_updatedAt_only_witness :
  ∃ db' s',
    Schedule_save seed_db 1700000000 "s-monday" seed_monday = Ok db' ∧
    schedules db' !! "s-monday" = Some s' ∧
    Schedule.updatedAt s' = Some 1700000000 ∧
    Schedule.set_updatedAt (Schedule.updatedAt seed_monday) s' = seed_monday ∧
    (∀ id', id' ≠ "s-monday" → schedules db' !! id' = schedules seed_db !! id') ∧
    set_schedules (schedules seed_db) db' = seed_db.
Proof.
  apply (schedule_save_changes_updatedAt_only seed_db 1700000000 "s-monday"
           seed_monday); vm_compute; reflexivity.
Defined.

Lemma Schedule_valid_with_status st cs s :
  Schedule_invalid_paths s = [] →
  st ∈ scheduleStatuses →
  Schedule_invalid_paths (Schedule.set_status_conflicts (Some st) cs s) = [].
Proof.
  unfold Schedule_invalid_paths. simpl. intros Hv Hst.
  repeat (apply app_eq_nil in Hv as [? Hv]).
  repeat (apply app_nil; split; [done|]).
  unfold enum_str. by rewrite bool_decide_eq_true_2.
Qed.

(** C4, as the design document states it, fails on the save path of the
    schema: a Schedule is stored as published with a non-empty [conflicts]
    list, and a new Schedule that the detector of the design document finds
    in conflict with the seeded Monday class is stored as published, by
    default, with no finding. *)
Lemma published_after_conflict_pass_counterexample :
  ¬ (∀ db now id s db' s',
       Schedule_save db now id s = Ok db' →
       schedules db' !! id = Some s' →
       Schedule.status s' = Some "published" →
       Schedule.conflicts s' = []) ∧
  (∃ db' s',
     Schedule_save seed_db 5 "s-ten" (Schedule_new 5 (monday_ten [])) = Ok db' ∧
     schedules db' !! "s-ten" = Some s' ∧
     Schedule.status s' = Some "published" ∧
     detectConflicts (claim_of_schedule "s-ten" s') (approvedSet seed_db)
     = [RoomConflict "s-monday"; InstructorConflict "s-monday"]).
Proof.
  split.
  - intros H.
    pose (s := Schedule_new 5 (monday_ten ["Room conflict with s-monday"])).
    specialize (H seed_db 5 "s-ten" s
                  (set_schedules (<["s-ten" := Schedule_pre_save 5 s]>
                                    (schedules seed_db)) seed_db)
                  (Schedule_pre_save 5 s)).
    discriminate H.
    + vm_compute. reflexivity.
    + simpl. apply lookup_insert_eq.
    + reflexivity.
  - eexists _, _. split; [by apply Schedule_save_ok|].
    split; [apply lookup_insert_eq|].
    split; [reflexivity|]. vm_compute. reflexivity.
Qed.

Lemma publishSchedule_ok db now id s :
  Schedule_invalid_paths s = [] → up db = true →
  let cs := describe <$> detectConflicts (claim_of_schedule id s) (approvedSet db) in
  let st := if bool_decide (cs = []) then "published" else "conflict" in
  publishSchedule db now id s
  = (set_schedules
       (<[id := Schedule_pre_save now
                  (Schedule.set_status_conflicts (Some st) cs s)]> (schedules db)) db,
     inr (st, cs)).
Proof.
  intros Hv Hup cs st. unfold publishSchedule. fold cs. fold st.
  rewrite Schedule_save_ok; [done| |done].
  apply Schedule_valid_with_status; [done|].
  subst st. unfold scheduleStatuses. case_bool_decide; set_solver.
Qed.

(** C4, amended.  The save path of the Schedule schema runs no conflict
    detection: it stores [status] and [conflicts] as the caller set them,
    and a new Schedule given no status is published by default.  A Schedule
    written through [publishSchedule], which runs the detector first, is
    stored as published exactly when the detector reports nothing, with an
    empty [conflicts] list, and as [conflict] with the findings otherwise. *)
Theorem published_status_is_as_written db now id s :
  Schedule_invalid_paths s = [] →
  up db = true →
  (∃ db' s',
     Schedule_save db now id s = Ok db' ∧
     schedules db' !! id = Some s' ∧
     Schedule.status s' = Schedule.status s ∧
     Schedule.conflicts s' = Schedule.conflicts s) ∧
  (∀ obj, Schedule.status obj = None →
          Schedule.status (Schedule_new now obj) = Some "published") ∧
  (∃ db' st cs s',
     publishSchedule db now id s = (db', inr (st, cs)) ∧
     schedules db' !! id = Some s' ∧
     Schedule.status s' = Some st ∧
     Schedule.conflicts s' = cs ∧
     cs = describe <$> detectConflicts (claim_of_schedule id s) (approvedSet db) ∧
     (st = "published" ↔ cs = []) ∧
     (st = "conflict" ↔ cs ≠ [])).
Proof.
  intros Hv Hup. split; [|split].
  - eexists _, _. split; [by apply Schedule_save_ok|].
    split; [apply lookup_insert_eq|]. done.
  - intros obj Hnone. unfold Schedule_new. simpl. by rewrite Hnone.
  - eexists _, _, _, _. split; [by apply publishSchedule_ok|].
    split; [apply lookup_insert_eq|].
    split; [done|]. split; [done|]. split; [done|].
    case_bool_decide as Hcs; split; split; intros; congruence.
Qed.

Lemma published_status_is_as_written_witness :
  (∃ db' s',
     Schedule_save seed_db 5 "s-ten" (Schedule_new 5 (monday_ten [])) = Ok db' ∧
     schedules db' !! "s-ten" = Some s' ∧
     Schedule.status s' = Schedule.status (Schedule_new 5 (monday_ten [])) ∧
     Schedule.conflicts s' = Schedule.conflicts (Schedule_new 5 (monday_ten []))) ∧
  (∀ obj, Schedule.status obj = None →
          Schedule.status (Schedule_new 5 obj) = Some "published") ∧
  (∃ db' st cs s',
     publishSchedule seed_db 5 "s-ten" (Schedule_new 5 (monday_ten []))
     = (db', inr (st, cs)) ∧
     schedules db' !! "s-ten" = Some s' ∧
     Schedule.status s' = Some st ∧
     Schedule.conflicts s' = cs ∧
     cs = describe <$> detectConflicts
            (claim_of_schedule "s-ten" (Schedule_new 5 (monday_ten [])))
            (approvedSet seed_db) ∧
     (st = "published" ↔ cs = []) ∧
     (st = "conflict" ↔ cs ≠ [])).
Proof.
  apply (published_status_is_as_written seed_db 5 "s-ten"
           (Schedule_new 5 (monday_ten []))); vm_compute; reflexivity.
Defined.

(** The scenario of the design document: publishing the 10:00 class next to
    the seeded 09:00 to 10:30 class of the same room yields [conflict]. *)
Example publish_monday_ten :
  snd (publishSchedule seed_db 5 "s-ten" (Schedule_new 5 (monday_ten [])))
  = inr ("conflict",
         ["Room conflict with s-monday"; "Instructor conflict with s-monday"]).
Proof. vm_compute. reflexivity. Qed.

(** ** Request approval (C2) *)

Lemma ScheduleRequest_save_inv db id r db' :
  ScheduleRequest_save db id r = Ok db' →
  db' = set_scheduleRequests (<[id := r]> (scheduleRequests db)) db.
Proof.
  unfold ScheduleRequest_save.
  destruct (ScheduleRequest_invalid_paths r); [|done].
  destruct (up db); simpl; [|done].
  by intros [= <-].
Qed.



(** The flag is true exactly when findings exist. *)
Lemma evaluateRequest_flag db id r :
  ScheduleRequest.conflict_flag (evaluateRequest db id r) = true
  ↔ ScheduleRequest.conflicts (evaluateRequest db id r) ≠ [].
Proof.
  unfold evaluateRequest. simpl.
  case_bool_decide as H; simpl; split; intros; congruence.
Qed.



(** The approval of the sample request is refused with the finding against
    the seeded Monday class, and the request stays pending. *)
Example approve_monday_request :
  ∃ db',
    transitionRequest request_db 9 "q-1" Approved
    = (db', inl (ConflictDetected ["Room conflict with s-monday";
                                   "Instructor conflict with s-monday"])) ∧
    ScheduleRequest.status <$> scheduleRequests db' !! "q-1" = Some (Some "pending").
Proof. eexists. split; vm_compute; reflexivity. Qed.

(** Without a conflict the same transition succeeds: the guard, not the
    transition, is what fails above. *)
Example approve_clean_request :
  ∃ db' r',
    transitionRequest
      (set_schedules ∅ request_db) 9 "q-1" Approved = (db', inr r') ∧
    ScheduleRequest.status r' = Some "approved" ∧
    ScheduleRequest.conflict_flag r' = false.
Proof. eexists _, _. split; [vm_compute; reflexivity|]. done. Qed.

(** ** The Conflict Detector (C3) *)

Lemma same_str_spec a b : same_str a b = true ↔ ∃ d, a = Some d ∧ b = Some d.
Proof.
  destruct a as [x|], b as [y|]; simpl; try (split; [done|by intros (?&?&?)]).
  rewrite String.eqb_eq. split; [intros ->; eauto|by intros (?&[= ->]&[= ->])].
Qed.

Lemma time_lt_spec a b : time_lt a b = true ↔ earlier a b.
Proof.
  unfold earlier, time_lt, String.ltb.
  destruct a as [x|], b as [y|];
    try (split; [done|by intros (?&?&?&?&?)]).
  destruct (String.compare x y) eqn:Hc; split; try done.
  - by intros (?&?&[= <-]&[= <-]&?); congruence.
  - eauto.
  - by intros (?&?&[= <-]&[= <-]&?); congruence.
Qed.

Lemma time_lt_irrefl a : time_lt a a = false.
Proof.
  destruct a as [x|]; [|done]. simpl. unfold String.ltb.
  assert (String.compare x x = Eq) as ->; [|done].
  by apply (OrderedTypeEx.String_as_OT.cmp_eq x x).
Qed.

Lemma same_day_spec c e : same_day c e = true ↔ shares_day c e.
Proof.
  unfold same_day, shares_day.
  rewrite orb_true_iff, !same_str_spec. done.
Qed.

Lemma windowsOverlap_spec c e :
  windowsOverlap c e = true ↔
  shares_day c e ∧
  earlier (cl_startTime c) (cl_endTime e) ∧
  earlier (cl_startTime e) (cl_endTime c).
Proof.
  unfold windowsOverlap.
  rewrite !andb_true_iff, same_day_spec, !time_lt_spec. tauto.
Qed.

Lemma touching_no_overlap c e : touching c e → windowsOverlap c e = false.
Proof.
  unfold windowsOverlap. intros [H|H].
  - rewrite H, time_lt_irrefl. by rewrite andb_false_r.
  - rewrite <- H, time_lt_irrefl. by rewrite andb_false_r, andb_false_l.
Qed.

Lemma elem_of_comparisonSet e ex :
  e ∈ comparisonSet ex ↔ e ∈ ex ∧ eligible e = true.
Proof.
  unfold comparisonSet.
  rewrite merge_sort_Permutation, list_elem_of_filter. tauto.
Qed.

Lemma RoomConflict_reported c ex i :
  RoomConflict i ∈ detectConflicts c ex ↔
  ∃ e, e ∈ ex ∧ cl_id e = i ∧ eligible e = true ∧ roomConflict c e = true.
Proof.
  unfold detectConflicts. rewrite elem_of_app, !list_elem_of_fmap. split.
  - intros [(e & [= ->] & He)|(e & ? & _)]; [|done].
    apply list_elem_of_filter in He as [Hc He].
    apply elem_of_comparisonSet in He as [He Hel]. eauto.
  - intros (e & He & <- & Hel & Hc). left. exists e. split; [done|].
    apply list_elem_of_filter. split; [done|].
    by apply elem_of_comparisonSet.
Qed.

Lemma InstructorConflict_reported c ex i :
  InstructorConflict i ∈ detectConflicts c ex ↔
  ∃ e, e ∈ ex ∧ cl_id e = i ∧ eligible e = true ∧ instructorConflict c e = true.
Proof.
  unfold detectConflicts. rewrite elem_of_app, !list_elem_of_fmap. split.
  - intros [(e & ? & _)|(e & [= ->] & He)]; [done|].
    apply list_elem_of_filter in He as [Hc He].
    apply elem_of_comparisonSet in He as [He Hel]. eauto.
  - intros (e & He & <- & Hel & Hc). right. exists e. split; [done|].
    apply list_elem_of_filter. split; [done|].
    by apply elem_of_comparisonSet.
Qed.

Lemma detectConflicts_nil c ex :
  (∀ e, e ∈ ex → windowsOverlap c e = false) → detectConflicts c ex = [].
Proof.
  intros Hno.
  destruct (detectConflicts c ex) as [|d ds] eqn:Hd; [done|].
  assert (d ∈ detectConflicts c ex) as Hin by (rewrite Hd; left).
  destruct d as [i|i].
  - apply RoomConflict_reported in Hin as (e & He & _ & _ & Hc).
    unfold roomConflict in Hc. rewrite (Hno e He) in Hc.
    by rewrite andb_false_r in Hc.
  - apply InstructorConflict_reported in Hin as (e & He & _ & _ & Hc).
    unfold instructorConflict in Hc. rewrite (Hno e He) in Hc.
    by rewrite andb_false_r in Hc.
Qed.

(** On zero-padded HH:MM strings the order of strings is the order of the
    clock. *)
Lemma compare_app s1 s2 t1 t2 :
  String.length s1 = String.length s2 →
  String.compare (s1 ++ t1) (s2 ++ t2)
  = match String.compare s1 s2 with
    | Eq => String.compare t1 t2
    | o => o
    end.
Proof.
  revert s2. induction s1 as [|a s1 IH]; intros [|b s2]; simpl; try done.
  intros [= Hlen]. destruct (Ascii.compare a b); [by apply IH|done..].
Qed.

Lemma two_digits_compare_all :
  forallb (λ a, forallb (λ b,
    bool_decide (String.compare (two_digits a) (two_digits b) = Nat.compare a b))
    (seq 0 100)) (seq 0 100) = true.
Proof. vm_compute. reflexivity. Qed.

Lemma two_digits_compare a b :
  (a < 100)%nat → (b < 100)%nat →
  String.compare (two_digits a) (two_digits b) = Nat.compare a b.
Proof.
  intros Ha Hb. pose proof two_digits_compare_all as Hall.
  rewrite forallb_forall in Hall.
  specialize (Hall a). rewrite forallb_forall in Hall.
  eapply bool_decide_eq_true_1.
  apply Hall; apply in_seq; lia.
Qed.

Lemma hhmm_chronological h1 m1 h2 m2 :
  (h1 < 24)%nat → (m1 < 60)%nat → (h2 < 24)%nat → (m2 < 60)%nat →
  time_lt (Some (hhmm h1 m1)) (Some (hhmm h2 m2)) = true
  ↔ (60 * h1 + m1 < 60 * h2 + m2)%nat.
Proof.
  intros Hh1 Hm1 Hh2 Hm2. unfold time_lt, String.ltb, hhmm.
  rewrite compare_app by reflexivity.
  rewrite two_digits_compare by lia.
  rewrite (compare_app ":" ":") by reflexivity.
  change (String.compare ":" ":") with Eq. cbv iota.
  rewrite two_digits_compare by lia.
  destruct (Nat.compare_spec h1 h2) as [->| |].
  - destruct (Nat.compare_spec m1 m2); split; (done || lia).
  - split; (done || lia).
  - split; (done || lia).
Qed.

(** C3.  The detector finds two windows overlapping exactly when they share
    the dayOfWeek (or the date) and [candidate.start < existing.end] and
    [existing.start < candidate.end]; a finding against an existing record
    is reported exactly when that record is eligible, holds the same room
    (or instructor), is another record, and overlaps; windows that touch
    never overlap, and a candidate that only touches the existing records
    gets no finding. *)
Theorem overlap_is_half_open :
  (∀ c e,
     windowsOverlap c e = true ↔
     shares_day c e ∧
     earlier (cl_startTime c) (cl_endTime e) ∧
     earlier (cl_startTime e) (cl_endTime c)) ∧
  (∀ c ex i,
     RoomConflict i ∈ detectConflicts c ex ↔
     ∃ e, e ∈ ex ∧ cl_id e = i ∧ eligible e = true ∧
          same_str (cl_roomId c) (cl_roomId e) = true ∧
          cl_id c ≠ cl_id e ∧ windowsOverlap c e = true) ∧
  (∀ c ex i,
     InstructorConflict i ∈ detectConflicts c ex ↔
     ∃ e, e ∈ ex ∧ cl_id e = i ∧ eligible e = true ∧
          same_str (cl_instructorId c) (cl_instructorId e) = true ∧
          cl_id c ≠ cl_id e ∧ windowsOverlap c e = true) ∧
  (∀ c e, touching c e → windowsOverlap c e = false ∧ windowsOverlap e c = false) ∧
  (∀ c ex, (∀ e, e ∈ ex → touching c e) → detectConflicts c ex = []).
Proof.
  split; [exact windowsOverlap_spec|].
  split; [|split; [|split]].
  - intros c ex i. rewrite RoomConflict_reported.
    apply exist_proper; intros e. unfold roomConflict.
    rewrite !andb_true_iff, negb_true_iff, String.eqb_neq. tauto.
  - intros c ex i. rewrite InstructorConflict_reported.
    apply exist_proper; intros e. unfold instructorConflict.
    rewrite !andb_true_iff, negb_true_iff, String.eqb_neq. tauto.
  - intros c e Ht. split; apply touching_no_overlap; [done|].
    destruct Ht; [by right|by left].
  - intros c ex Ht. apply detectConflicts_nil.
    intros e He. by apply touching_no_overlap, Ht.
Qed.

(** A ends at 10:00 and B starts at 10:00: no finding either way; moved to
    start at 09:59, B is in conflict with A. *)
Example touching_at_ten :
  detectConflicts claim_B [claim_A] = [] ∧
  detectConflicts claim_A [claim_B] = [] ∧
  detectConflicts
    (mkClaim "B" (Some "r-a101") (Some "i-chen") (Some "Monday") None
       (Some "09:59") (Some "11:00") (Some "published") 2) [claim_A]
  = [RoomConflict "A"; InstructorConflict "A"].
Proof. vm_compute. done. Qed.

(** ** Enrollment: the pair (studentId, scheduleId) (C1) *)

Lemma countEnrollment_enrollments db cid :
  enrollments (countEnrollment db cid) = enrollments db.
Proof.
  unfold countEnrollment. destruct cid as [c|]; [|done].
  by destruct (courses db !! c).
Qed.

Lemma enroll_inv db newId st sch db1 e :
  enroll db newId st sch = (db1, inr e) →
  enrollmentsFor db st sch = ∅ ∧
  enrollments db1 = <[newId := e]> (enrollments db) ∧
  Enrollment.studentId e = Some st ∧
  Enrollment.scheduleId e = Some sch.
Proof.
  unfold enroll. case_bool_decide as Hfree; [|done].
  set (e0 := Enrollment.mk _ _ _ _ _ _ _ _ _ _ _).
  destruct (Enrollment_save db (mkCtx true []) newId e0) as [db'|] eqn:Hsave; [|done].
  apply Enrollment_save_inv in Hsave as (e' & Hhook & _ & _ & ->).
  simpl. rewrite lookup_insert_eq. intros [= <- <-].
  apply Enrollment_pre_save_keys in Hhook as (Hs & Hsch & _).
  rewrite countEnrollment_enrollments. done.
Qed.

(** C1, as the design document states it, fails at the store boundary: the
    Enrollment schema declares no unique index, and its save path stores a
    second document for a pair that is enrolled already. *)
Lemma enrollment_pair_unique_at_store_counterexample :
  ∃ db1 db2,
    Enrollment_save seed_db (mkCtx true []) "e-1" alex_monday = Ok db1 ∧
    Enrollment_save db1 (mkCtx true []) "e-2" alex_monday = Ok db2 ∧
    size (enrollmentsFor db1 "st-alex" "s-monday") = 1%nat ∧
    size (enrollmentsFor db2 "st-alex" "s-monday") = 2%nat.
Proof.
  eexists _, _.
  split; [vm_compute; reflexivity|].
  split; [vm_compute; reflexivity|].
  split; vm_compute; reflexivity.
Qed.

(** C1, amended.  The pair is kept unique by [enroll], not by the store:
    once [enroll] has enrolled a student in a schedule, exactly one
    Enrollment exists for the pair, a second [enroll] for it fails with
    [DuplicateEnrollmentError] and leaves the store as it was; the save path
    of the Enrollment schema itself accepts every valid document, whatever
    the store holds. *)
Theorem enroll_keeps_pair_unique db id1 id2 st sch db1 e :
  enroll db id1 st sch = (db1, inr e) →
  size (enrollmentsFor db1 st sch) = 1%nat ∧
  enrollments db1 !! id1 = Some e ∧
  Enrollment.studentId e = Some st ∧
  Enrollment.scheduleId e = Some sch ∧
  enroll db1 id2 st sch = (db1, inl DuplicateEnrollmentError) ∧
  (∀ ctx id' e', Enrollment_invalid_paths e' = [] → up db1 = true →
                 is_Ok (Enrollment_save db1 ctx id' e')).
Proof.
  intros Henroll.
  apply enroll_inv in Henroll as (Hfree & Hens & Hst & Hsch).
  assert (enrollmentsFor db1 st sch = {[id1 := e]}) as Hone.
  { unfold enrollmentsFor in *. rewrite Hens.
    rewrite map_filter_insert_True by done.
    by rewrite Hfree, insert_empty. }
  split; [by rewrite Hone, map_size_singleton|].
  split; [by rewrite Hens, lookup_insert_eq|].
  split; [done|]. split; [done|]. split.
  - unfold enroll. rewrite Hone.
    rewrite bool_decide_eq_false_2; [done|]. apply insert_non_empty.
  - intros ctx id' e' Hv Hup.
    destruct (Enrollment_pre_save_up db1 ctx e' Hup) as (e'' & Hhook & _).
    eexists. by apply Enrollment_save_ok.
Qed.

Lemma enroll_keeps_pair_unique_witness :
  enroll seed_db "e-1" "st-alex" "s-monday" = (seed_after_enroll, inr alex_enrolled) ∧
  size (enrollmentsFor seed_after_enroll "st-alex" "s-monday") = 1%nat ∧
  enrollments seed_after_enroll !! "e-1" = Some alex_enrolled ∧
  Enrollment.studentId alex_enrolled = Some "st-alex" ∧
  Enrollment.scheduleId alex_enrolled = Some "s-monday" ∧
  enroll seed_after_enroll "e-2" "st-alex" "s-monday"
  = (seed_after_enroll, inl DuplicateEnrollmentError) ∧
  (∀ ctx id' e', Enrollment_invalid_paths e' = [] → up seed_after_enroll = true →
                 is_Ok (Enrollment_save seed_after_enroll ctx id' e')).
Proof.
  split; [vm_compute; reflexivity|].
  apply (enroll_keeps_pair_unique seed_db "e-1" "e-2" "st-alex" "s-monday"
           seed_after_enroll alex_enrolled).
  vm_compute; reflexivity.
Defined.

(** ** The admin view: enrollment counts (C8) *)


Lemma count_or_succ n : count_or (Some (n + 1)%nat) 0 = (n + 1)%nat.
Proof. by rewrite Nat.add_1_r. Qed.










(** ** The admin view: the sorted table (C10) *)

Section Sorting.
Context {A : Type} (cmp : A → A → Z) (R : relation A).
Hypothesis before_R : ∀ y x, cmp y x < 0 → R y x.
Hypothesis not_before_R : ∀ y x, ¬ cmp y x < 0 → R x y.

Lemma js_insert_Permutation x l : js_insert cmp x l ≡ₚ x :: l.
Proof.
  induction l as [|y l IH]; simpl; [done|].
  destruct (cmp y x <? 0)%Z; [|done].
  rewrite IH. apply Permutation_swap.
Qed.

Lemma js_sort_Permutation l : js_sort cmp l ≡ₚ l.
Proof.
  induction l as [|x l IH]; simpl; [done|].
  by rewrite js_insert_Permutation, IH.
Qed.




End Sorting.

Section TableOrder.
Context (lc : string → string → Z) `{!Collation lc}.




Lemma lc_lt_irrefl a : ¬ lc a a < 0.
Proof. intros H. pose proof (proj2 (lc_eq a a) eq_refl). lia. Qed.

Global Instance enrolled_le_trans : Transitive (enrolled_le lc).
Proof.
  intros a b c. unfold enrolled_le, lc_lt. intros [H1|[E1 H1]] [H2|[E2 H2]].
  - left. by eapply lc_trans.
  - left. by rewrite <- E2.
  - left. by rewrite E1.
  - right. split; [congruence|].
    destruct H1 as [H1|[F1 H1]], H2 as [H2|[F2 H2]].
    + left. by eapply lc_trans.
    + left. by rewrite <- F2.
    + left. by rewrite F1.
    + right. split; [congruence|].
      destruct H1 as [H1|G1], H2 as [H2|G2].
      * left. by eapply lc_trans.
      * left. by rewrite <- G2.
      * left. by rewrite G1.
      * right. congruence.
Qed.


Lemma enrolled_le_antisym a b :
  enrolled_le lc a b → enrolled_le lc b a →
  es_yearLevel a = es_yearLevel b ∧ es_section a = es_section b ∧
  es_studentName a = es_studentName b.
Proof.
  unfold enrolled_le, lc_lt. intros [H1|[E1 H1]] [H2|[E2 H2]].
  - exfalso. by eapply lc_lt_irrefl, lc_trans.
  - exfalso. rewrite E2 in H1. by eapply lc_lt_irrefl.
  - exfalso. rewrite E1 in H2. by eapply lc_lt_irrefl.
  - split; [done|].
    destruct H1 as [H1|[F1 H1]], H2 as [H2|[F2 H2]].
    + exfalso. by eapply lc_lt_irrefl, lc_trans.
    + exfalso. rewrite F2 in H1. by eapply lc_lt_irrefl.
    + exfalso. rewrite F1 in H2. by eapply lc_lt_irrefl.
    + split; [done|].
      destruct H1 as [H1|G1], H2 as [H2|G2]; try done.
      exfalso. by eapply lc_lt_irrefl, lc_trans.
Qed.




End TableOrder.



Global Instance codeUnitCompare_collation : Collation codeUnitCompare.
Proof.
  split.
  - intros a b. unfold codeUnitCompare.
    pose proof (OrderedTypeEx.String_as_OT.cmp_eq a b) as Heq.
    unfold OrderedTypeEx.String_as_OT.cmp in Heq.
    destruct (String.compare a b); split; try done.
    + intros _. by apply Heq.
    + intros Hab. by apply Heq in Hab.
    + intros Hab. by apply Heq in Hab.
  - intros a b. unfold codeUnitCompare.
    rewrite (String.compare_antisym b a).
    destruct (String.compare a b); simpl; lia.
  - intros a b c. unfold codeUnitCompare.
    pose proof (OrderedTypeEx.String_as_OT.cmp_lt a b) as Hab.
    pose proof (OrderedTypeEx.String_as_OT.cmp_lt b c) as Hbc.
    pose proof (OrderedTypeEx.String_as_OT.cmp_lt a c) as Hac.
    unfold OrderedTypeEx.String_as_OT.cmp in *.
    destruct (String.compare a b); try lia.
    destruct (String.compare b c); try lia.
    intros _ _.
    assert (String.compare a c = Lt) as ->; [|lia].
    apply Hac. eapply OrderedTypeEx.String_as_OT.lt_trans; [by apply Hab|by apply Hbc].
Qed.


(** The sample rows in display order: first year first, then the two rows
    of section 2B by name; the state array keeps its order. *)
Example sample_table :
  ∃ h',
    tableRows codeUnitCompare sample_heap 0
    = Some (h', [row "e1" "Reyes" "1" "A"; row "e2" "Abad" "2" "B";
                 row "e3" "Cruz" "2" "B"]) ∧
    h' !! 0%nat = Some sample_rows.
Proof. eexists. split; vm_compute; reflexivity. Qed.

(** Sorting the state array itself would change it: the copy matters. *)
Example sort_in_place_changes_state :
  ∃ h' a,
    array_sort (sortEnrolledStudents codeUnitCompare) sample_heap 0 = Some (h', a) ∧
    h' !! 0%nat ≠ Some sample_rows.
Proof. eexists _, _. split; [vm_compute; reflexivity|]. vm_compute. discriminate. Qed.

(** * Further properties of the schema file *)

(** ** The save path of a Course *)


Lemma Course_code_taken_spec db id c :
  Course_code_taken db id c = true ↔
  ∃ j cj, courses db !! j = Some cj ∧ j ≠ id ∧ Course.code cj = Course.code c.
Proof.
  unfold Course_code_taken. rewrite bool_decide_eq_true, Exists_exists. split.
  - intros ([j cj] & Hin & Hne & Hcode). apply elem_of_map_to_list in Hin. eauto.
  - intros (j & cj & Hj & Hne & Hcode). exists (j, cj).
    split; [by apply elem_of_map_to_list|done].
Qed.


Lemma Course_pre_save_valid trim db c c' :
  Course_pre_save trim db c = Ok c' →
  Course_invalid_paths c' = Course_invalid_paths c.
Proof.
  unfold Course_pre_save.
  destruct (Course.instructorId c) as [i|]; [|by intros [= <-]].
  destruct (findById db (instructors db) (Some i)) as [[ins|]|]; simpl;
    [|by intros [= <-]|done].
  destruct (populate_user db (Instructor.userId ins)) as [u|]; [|by intros [= <-]].
  destruct (truthy (User.name u)); by intros [= <-].
Qed.



Lemma Course_save_free trim db id c db' :
  Course_save trim db id c = Ok db' → Course_code_taken db id c = false.
Proof.
  unfold Course_save.
  destruct (Course_invalid_paths c); [|done].
  destruct (Course_pre_save trim db c) as [c'|] eqn:Hhook; simpl; [|done].
  destruct (up db); simpl; [|done].
  destruct (Course_code_taken db id c') eqn:Ht; [done|]. intros _.
  unfold Course_code_taken in *.
  by rewrite <- (Course_pre_save_code _ _ _ _ Hhook).
Qed.

(** X1.  A Course save keeps the codes of the stored courses distinct. *)
Theorem Course_save_keeps_codes_unique (trim : string → string) db id c db' :
  codes_unique db →
  Course_save trim db id c = Ok db' →
  codes_unique db'.
Proof.
  intros Huniq Hsave.
  pose proof (Course_save_free _ _ _ _ _ Hsave) as Hfree.
  apply Course_save_inv in Hsave as (c' & Hhook & Hup & ->).
  apply not_true_iff_false in Hfree. rewrite Course_code_taken_spec in Hfree.
  pose proof (Course_pre_save_code _ _ _ _ Hhook) as Hcode.
  intros i j ci cj. simpl.
  destruct (decide (i = id)) as [->|Hi], (decide (j = id)) as [->|Hj];
    rewrite ?lookup_insert_eq, ?lookup_insert_ne by done.
  - done.
  - intros [= <-] Hcj Heq. exfalso. apply Hfree. exists j, cj. split_and!; congruence.
  - intros Hci [= <-] Heq. exfalso. apply Hfree. exists i, ci. split_and!; congruence.
  - apply Huniq.
Qed.

Lemma Course_save_keeps_codes_unique_witness :
  codes_unique seed_db ∧
  Course_save ascii_trim seed_db "c-math201" seed_math201
  = Ok (set_courses (<["c-math201" := seed_math201]> (courses seed_db)) seed_db) ∧
  codes_unique
    (set_courses (<["c-math201" := seed_math201]> (courses seed_db)) seed_db).
Proof.
  assert (codes_unique seed_db) as Hseed.
  { intros i j ci cj Hi Hj _. simpl in Hi, Hj.
    apply lookup_insert_Some in Hi as [[<- _]|[_ Hi]]; [|done].
    apply lookup_insert_Some in Hj as [[<- _]|[_ Hj]]; done. }
  assert (Course_save ascii_trim seed_db "c-math201" seed_math201
          = Ok (set_courses (<["c-math201" := seed_math201]> (courses seed_db))
                  seed_db)) as Hsave by (vm_compute; reflexivity).
  split; [exact Hseed|]. split; [exact Hsave|].
  exact (Course_save_keeps_codes_unique ascii_trim seed_db "c-math201"
           seed_math201 _ Hseed Hsave).
Defined.

(** ** The Enrollment hook *)

Lemma Enrollment_pre_save_frame db ctx e e' :
  Enrollment_pre_save db ctx e = Ok e' →
  Enrollment.studentId e' = Enrollment.studentId e ∧
  Enrollment.courseId e' = Enrollment.courseId e ∧
  Enrollment.scheduleId e' = Enrollment.scheduleId e ∧
  Enrollment.instructorId e' = Enrollment.instructorId e ∧
  Enrollment.yearLevel e' = Enrollment.yearLevel e ∧
  Enrollment.section e' = Enrollment.section e ∧
  Enrollment.createdAt e' = Enrollment.createdAt e.
Proof.
  unfold Enrollment_pre_save.
  destruct (isNew ctx || isModified ctx "studentId" || isModified ctx "courseId");
    [|by intros [= <-]].
  destruct (findById db (students db) (Enrollment.studentId e)) as [student|];
    simpl; [|done].
  set (e1 := match student with Some _ => _ | None => _ end).
  assert (Enrollment.studentId e1 = Enrollment.studentId e ∧
          Enrollment.courseId e1 = Enrollment.courseId e ∧
          Enrollment.scheduleId e1 = Enrollment.scheduleId e ∧
          Enrollment.instructorId e1 = Enrollment.instructorId e ∧
          Enrollment.yearLevel e1 = Enrollment.yearLevel e ∧
          Enrollment.section e1 = Enrollment.section e ∧
          Enrollment.createdAt e1 = Enrollment.createdAt e) as Hframe.
  { subst e1. destruct student as [st|]; [|done].
    by destruct (populate_user db (Student.userId st)). }
  destruct (findById db (courses db) (Enrollment.courseId e1)) as [[c|]|];
    simpl; [| |done]; intros [= <-]; simpl; done.
Qed.

(** X5.  The Enrollment hook never touches the references, the year level,
    the section or the creation time of the document; and for a stored
    Enrollment whose [studentId] and [courseId] were not modified it makes
    no lookup and changes nothing, whatever the store holds by now and even
    when the store is down. *)
Theorem Enrollment_hook_frame db ctx e :
  (∀ e', Enrollment_pre_save db ctx e = Ok e' →
     Enrollment.studentId e' = Enrollment.studentId e ∧
     Enrollment.courseId e' = Enrollment.courseId e ∧
     Enrollment.scheduleId e' = Enrollment.scheduleId e ∧
     Enrollment.instructorId e' = Enrollment.instructorId e ∧
     Enrollment.yearLevel e' = Enrollment.yearLevel e ∧
     Enrollment.section e' = Enrollment.section e ∧
     Enrollment.createdAt e' = Enrollment.createdAt e) ∧
  (isNew ctx = false →
   "studentId" ∉ modifiedPaths ctx → "courseId" ∉ modifiedPaths ctx →
   Enrollment_pre_save db ctx e = Ok e).
Proof.
  split; [intros e'; apply Enrollment_pre_save_frame|].
  intros Hnew Hs Hc. unfold Enrollment_pre_save, isModified.
  by rewrite Hnew, !bool_decide_eq_false_2.
Qed.

(** X4.  For a new Enrollment, or one whose [studentId] or [courseId] was
    modified, with a Student, its User and a Course that resolve, the hook
    stores the User's name as [studentName], the Course's name and code as
    [courseName] and [courseCode], and as [department] the first non-empty
    of the Student's department, the User's department and the department
    the document carried. *)
Theorem Enrollment_hook_denormalises db ctx e sid st u cid c :
  up db = true →
  isNew ctx || isModified ctx "studentId" || isModified ctx "courseId" = true →
  Enrollment.studentId e = Some sid →
  students db !! sid = Some st →
  populate_user db (Student.userId st) = Some u →
  Enrollment.courseId e = Some cid →
  courses db !! cid = Some c →
  ∃ e', Enrollment_pre_save db ctx e = Ok e' ∧
        Enrollment.studentName e' = User.name u ∧
        Enrollment.department e'
        = js_or (js_or (Student.department st) (User.department u))
                (Enrollment.department e) ∧
        Enrollment.courseName e' = Course.name c ∧
        Enrollment.courseCode e' = Course.code c.
Proof.
  intros Hup Hctx Hsid Hst Hu Hcid Hc. unfold Enrollment_pre_save.
  rewrite Hctx, (findById_up _ _ _ Hup), Hsid. simpl. rewrite Hst, Hu.
  rewrite (findById_up _ _ _ Hup). simpl. rewrite Hcid. simpl. rewrite Hc.
  by eexists.
Qed.

Lemma Enrollment_hook_denormalises_witness :
  ∃ e', Enrollment_pre_save seed_db (mkCtx true []) alex_monday = Ok e' ∧
        Enrollment.studentName e' = Some "Alex Smith" ∧
        Enrollment.department e'
        = js_or (js_or (Some "Computer Science") (Some "Computer Science"))
                (Enrollment.department alex_monday) ∧
        Enrollment.courseName e' = Some "Introduction to Computer Science" ∧
        Enrollment.courseCode e' = Some "CS101".
Proof.
  apply (Enrollment_hook_denormalises seed_db (mkCtx true []) alex_monday
           "st-alex"
           (Student.mk (Some "u-stu") (Some "STU1") (Some "Computer Science")
              (Some "2") (Some "A") ["c-cs101"])
           (User.mk (Some "Alex Smith") (Some "student@university.edu")
              (Some "student") (Some "Computer Science") (Some "A"))
           "c-cs101" seed_cs101); vm_compute; reflexivity.
Defined.

(** ** Validity of what is stored *)

Lemma Course_save_valid trim db id c db' :
  Course_save trim db id c = Ok db' → Course_invalid_paths c = [].
Proof. unfold Course_save. by destruct (Course_invalid_paths c). Qed.

Lemma Enrollment_pre_save_valid db ctx e e' :
  Enrollment_pre_save db ctx e = Ok e' →
  Enrollment_invalid_paths e' = Enrollment_invalid_paths e.
Proof.
  intros Hhook.
  apply Enrollment_pre_save_frame in Hhook as (Hs & Hc & _ & _ & Hy & _).
  unfold Enrollment_invalid_paths. by rewrite Hs, Hc, Hy.
Qed.

Lemma ScheduleRequest_save_valid db id r db' :
  ScheduleRequest_save db id r = Ok db' → ScheduleRequest_invalid_paths r = [].
Proof. unfold ScheduleRequest_save. by destruct (ScheduleRequest_invalid_paths r). Qed.

(** X3.  Every save path keeps the store valid: if each stored document
    passes the validators of its schema before a Course, Schedule,
    Enrollment or ScheduleRequest save, each does after it; what the hooks
    write is never a path that a validator reads. *)
Theorem saves_keep_store_valid (trim : string → string) db :
  store_valid db →
  (∀ id c db', Course_save trim db id c = Ok db' → store_valid db') ∧
  (∀ now id s db', Schedule_save db now id s = Ok db' → store_valid db') ∧
  (∀ ctx id e db', Enrollment_save db ctx id e = Ok db' → store_valid db') ∧
  (∀ id r db', ScheduleRequest_save db id r = Ok db' → store_valid db').
Proof.
  intros (Hc & Hs & He & Hr). split_and!.
  - intros id c db' Hsave. pose proof (Course_save_valid _ _ _ _ _ Hsave) as Hv.
    apply Course_save_inv in Hsave as (c' & Hhook & _ & ->).
    split_and!; simpl; [|done..].
    apply map_Forall_insert_2; [|done].
    by rewrite (Course_pre_save_valid _ _ _ _ Hhook).
  - intros now id s db' Hsave.
    apply Schedule_save_inv in Hsave as (Hv & _ & ->).
    split_and!; simpl; [done| |done..].
    by apply map_Forall_insert_2.
  - intros ctx id e db' Hsave.
    apply Enrollment_save_inv in Hsave as (e' & Hhook & _ & Hv & ->).
    split_and!; simpl; [done..| |done].
    apply map_Forall_insert_2; [|done].
    by rewrite (Enrollment_pre_save_valid _ _ _ _ Hhook).
  - intros id r db' Hsave. pose proof (ScheduleRequest_save_valid _ _ _ _ Hsave) as Hv.
    apply ScheduleRequest_save_inv in Hsave as ->.
    split_and!; simpl; [done..|].
    by apply map_Forall_insert_2.
Qed.

Lemma saves_keep_store_valid_witness :
  store_valid seed_db ∧
  store_valid
    (set_schedules
       (<["s-ten" := Schedule_pre_save 5 (Schedule_new 5 (monday_ten []))]>
          (schedules seed_db)) seed_db).
Proof.
  assert (store_valid seed_db) as Hseed.
  { split_and!; simpl;
      repeat (apply map_Forall_insert_2; [vm_compute; reflexivity|]);
      apply map_Forall_empty. }
  split; [exact Hseed|].
  destruct (saves_keep_store_valid ascii_trim seed_db Hseed) as (_ & Hs & _ & _).
  apply (Hs 5 "s-ten" (Schedule_new 5 (monday_ten []))).
  vm_compute; reflexivity.
Defined.

(** ** Connecting *)

Lemma connectLoop_3 w :
  connectLoop w 3 0
  = if connectOk w 0 then ([EvConnect], None)
    else if connectOk w 1 then ([EvConnect; EvWait; EvConnect], None)
    else if connectOk w 2
    then ([EvConnect; EvWait; EvConnect; EvWait; EvConnect], None)
    else ([EvConnect; EvWait; EvConnect; EvWait; EvConnect], Some 2%nat).
Proof.
  simpl. destruct (connectOk w 0); [done|].
  destruct (connectOk w 1); [done|]. by destruct (connectOk w 2).
Qed.



(** X7.  The flag [isConnected] is set as soon as the connection stands,
    before the ping and the seeding.  After a call that failed on the
    connection the flag is off and [getConnection] throws.  After a call
    that failed on the ping or on the seeding the flag is on: every later
    call of [initializeDatabase] returns at once, without connecting,
    pinging or seeding again, and [getConnection] returns the connection. *)
Theorem isConnected_after_initializeDatabase w flag evs res :
  initializeDatabase false w = (flag, evs, res) →
  (∀ a, res = inl (ConnectFailed a) →
        flag = false ∧ getConnection flag = inl NotInitialized) ∧
  (res = inl PingFailed ∨ res = inl SeedFailed →
     flag = true ∧ getConnection flag = inr () ∧
     ∀ w', initializeDatabase flag w' = (true, [], inr ())) ∧
  (res = inr () →
     flag = true ∧ getConnection flag = inr () ∧
     occurrences EvSeed evs = 1%nat).
Proof.
  unfold initializeDatabase. rewrite connectLoop_3. intros Hinit.
  destruct (connectOk w 0);
    [|destruct (connectOk w 1); [|destruct (connectOk w 2)]];
    simpl in Hinit; destruct (pingOk w), (seedOk w); simpl in Hinit;
    injection Hinit as <- <- <-.
  all: split; [intros a Ha; try discriminate Ha; done|].
  all: split; [intros [Hr|Hr]; try discriminate Hr; done|].
  all: intros Hr; try discriminate Hr; done.
Qed.

Lemma isConnected_after_initializeDatabase_witness :
  initializeDatabase false seed_fails_world
  = (true, [EvConnect; EvPing; EvSeed], inl SeedFailed) ∧
  getConnection true = inr () ∧
  ∀ w', initializeDatabase true w' = (true, [], inr ()).
Proof.
  split; [reflexivity|].
  destruct (isConnected_after_initializeDatabase seed_fails_world true
              [EvConnect; EvPing; EvSeed] (inl SeedFailed) eq_refl)
    as (_ & Hfail & _).
  destruct (Hfail (or_intror eq_refl)) as (_ & Hget & Hnext).
  split; [exact Hget|exact Hnext].
Defined.

(** * Further properties of the admin enrollment view *)

(** ** Values of API responses *)

Lemma jor_truthy_r a d : jtruthy d = true → jtruthy (a ||| d) = true.
Proof. intros Hd. unfold jor. by destruct (jtruthy a) eqn:Ha. Qed.

Lemma jor_empty a : jtruthy (a ||| JStr "") = true ∨ a ||| JStr "" = JStr "".
Proof. unfold jor. destruct (jtruthy a) eqn:Ha; [by left|by right]. Qed.

(** ** Rows of enrolled students *)

(** X9.  The callback of [loadEnrolledStudents] throws on a [null]
    enrollment and on no other; the row it builds has a non-empty
    [studentName] and [yearLevel] ('Unknown Student' and '1' when the
    response names none), and each of its sixteen fields is a truthy value
    or the empty string, never [undefined] or [null]. *)
Theorem normalizeEnrollment_defined e :
  (nullish e = true → normalizeEnrollment e = None) ∧
  (nullish e = false →
   ∃ row, normalizeEnrollment e = Some row ∧
     jtruthy (prop row "studentName") = true ∧
     jtruthy (prop row "yearLevel") = true ∧
     Forall (λ k, jtruthy (prop row k) = true ∨ prop row k = JStr "")
            enrolledStudentKeys).
Proof.
  unfold normalizeEnrollment. split; intros ->; [done|].
  eexists. split; [done|].
  split; [by apply jor_truthy_r|]. split; [by apply jor_truthy_r|].
  unfold enrolledStudentKeys.
  repeat (apply List.Forall_cons;
          [first [apply jor_empty | left; by apply jor_truthy_r]|]).
  apply List.Forall_nil.
Qed.

(** ** The enroll panel *)

Lemma jand_truthy a b :
  jtruthy (jand a b) = true ↔ jtruthy a = true ∧ jtruthy b = true.
Proof.
  unfold jand. destruct (jtruthy a) eqn:Ha; [tauto|].
  rewrite Ha. split; [done|by intros [? _]].
Qed.

Lemma mapM_images {A B} (f : A → option B) l k :
  mapM f l = Some k → Forall (λ y, ∃ x, f x = Some y) k.
Proof.
  intros Hmap. apply mapM_Some_1 in Hmap.
  induction Hmap; constructor; eauto.
Qed.

Lemma mapM_cons_option {A B} (f : A → option B) x l :
  mapM f (x :: l) = y ← f x; k ← mapM f l; Some (y :: k).
Proof. reflexivity. Qed.

Lemma normalizeStudent_shape st s :
  normalizeStudent st = Some s →
  prop s "_id" = JUndefined ∧ prop s "id" = JUndefined.
Proof.
  unfold normalizeStudent. destruct (nullish st); [done|].
  by intros [= <-].
Qed.

Lemma validStudents_studentOfPanel items normalized :
  mapM normalizeStudent items = Some normalized →
  Forall studentOfPanel (validStudents normalized).
Proof.
  intros Hmap. apply mapM_images in Hmap.
  unfold validStudents. apply Forall_forall. intros s Hs.
  apply list_elem_of_filter in Hs as [Hvalid Hs].
  apply jand_truthy in Hvalid as [Hdoc Hname].
  rewrite Forall_forall in Hmap. destruct (Hmap s Hs) as (st & Hst).
  apply normalizeStudent_shape in Hst as [H1 H2]. by split_and!.
Qed.

Lemma processStudents_allStudents r st st' ok :
  processStudents r st = (st', ok) →
  Forall studentOfPanel (p_allStudents st) →
  Forall studentOfPanel (p_allStudents st').
Proof.
  unfold processStudents.
  destruct (jtruthy (jand (optProp r "success") (prop r "students")));
    [|intros [= <- <-] _; simpl; constructor].
  unfold jmap. destruct (prop r "students") as [| | | | |items|];
    try (by intros [= <- <-]).
  destruct (mapM normalizeStudent items) as [normalized|] eqn:Hmap;
    [|by intros [= <- <-]].
  intros [= <- <-] _. simpl. by eapply validStudents_studentOfPanel.
Qed.

Lemma processSchedules_allStudents r st st' ok :
  processSchedules r st = (st', ok) → p_allStudents st' = p_allStudents st.
Proof.
  unfold processSchedules.
  destruct (jtruthy (optProp r "success")); [|by intros [= <- <-]].
  destruct (jmap normalizeLookupSchedule _); by intros [= <- <-].
Qed.

(** X10.  [allStudents] only ever holds students that have a [docId] and a
    [name]: whatever the two requests resolve to, and whether the function
    runs to its end or throws half-way, [loadEnrollmentLookups] keeps that;
    a student that the response gives no [_id] and no [id], or no name, is
    dropped.  Such a student object has no [_id] and no [id] of its own. *)
Theorem allStudents_have_docId_and_name st schedulesResponse studentsResponse :
  Forall studentOfPanel (p_allStudents st) →
  Forall studentOfPanel
    (p_allStudents (loadEnrollmentLookups st schedulesResponse studentsResponse)).
Proof.
  intros Hinv. unfold loadEnrollmentLookups.
  destruct (processSchedules schedulesResponse (setLoadingEnrollPanel true st))
    as [st1 ok1] eqn:H1.
  apply processSchedules_allStudents in H1. simpl in H1.
  destruct ok1; simpl; [|by rewrite H1].
  destruct (processStudents studentsResponse st1) as [st2 ok2] eqn:H2.
  apply processStudents_allStudents in H2; [|by rewrite H1].
  by destruct ok2.
Qed.

Lemma allStudents_have_docId_and_name_witness :
  Forall studentOfPanel (p_allStudents empty_panel) ∧
  p_allStudents (loadEnrollmentLookups empty_panel schedules_response students_response)
  = [JObj [("docId", JStr "st-alex"); ("userId", JStr "u-stu");
           ("name", JStr "Alex Smith"); ("year", JStr "2"); ("section", JStr "2A");
           ("department", JStr "BSIT"); ("email", JStr "")]] ∧
  Forall studentOfPanel
    (p_allStudents
       (loadEnrollmentLookups empty_panel schedules_response students_response)).
Proof.
  assert (Forall studentOfPanel (p_allStudents empty_panel)) as Hinit
    by (simpl; constructor).
  split; [exact Hinit|]. split; [vm_compute; reflexivity|].
  exact (allStudents_have_docId_and_name empty_panel schedules_response
           students_response Hinit).
Defined.

(** X11.  The two halves of the load are independent: when the schedules
    request failed (or came back without [success]), the schedules of the
    panel are emptied and an error is shown, and a well-formed students
    response is still processed into [allStudents]. *)
Theorem students_load_without_schedules
    st schedulesResponse studentsResponse items normalized :
  jtruthy (optProp schedulesResponse "success") = false →
  jtruthy (optProp studentsResponse "success") = true →
  prop studentsResponse "students" = JArr items →
  mapM normalizeStudent items = Some normalized →
  validStudents normalized ≠ [] →
  loadEnrollmentLookups st schedulesResponse studentsResponse
  = mkPanel [] (validStudents normalized)
      (p_toasts st ++ ["Failed to load schedules. Please try again."])%list false.
Proof.
  intros Hs Hok Hstudents Hmap Hvalid.
  unfold loadEnrollmentLookups, processSchedules. rewrite Hs. simpl.
  unfold processStudents.
  rewrite (proj2 (jand_truthy _ _)) by (by rewrite Hok, Hstudents).
  rewrite Hstudents. simpl. rewrite Hmap.
  by destruct (validStudents normalized).
Qed.

Lemma students_load_without_schedules_witness :
  loadEnrollmentLookups empty_panel JNull students_response
  = mkPanel []
      [JObj [("docId", JStr "st-alex"); ("userId", JStr "u-stu");
             ("name", JStr "Alex Smith"); ("year", JStr "2"); ("section", JStr "2A");
             ("department", JStr "BSIT"); ("email", JStr "")]]
      ["Failed to load schedules. Please try again."] false.
Proof.
  apply (students_load_without_schedules empty_panel JNull students_response
           [JObj [("_id", JStr "st-alex"); ("year", JStr "2"); ("section", JStr "2A");
                  ("userId", JObj [("_id", JStr "u-stu"); ("name", JStr "Alex Smith");
                                   ("department", JStr "BSIT")])];
            JObj [("name", JStr "No Id"); ("section", JStr "1B")]]
           [JObj [("docId", JStr "st-alex"); ("userId", JStr "u-stu");
                  ("name", JStr "Alex Smith"); ("year", JStr "2");
                  ("section", JStr "2A"); ("department", JStr "BSIT");
                  ("email", JStr "")];
            JObj [("docId", JStr ""); ("userId", JNull); ("name", JStr "No Id");
                  ("year", JStr ""); ("section", JStr "1B"); ("department", JStr "");
                  ("email", JStr "")]]);
    vm_compute; (reflexivity || discriminate).
Defined.

Lemma normalizeLookupSchedule_active s n :
  normalizeLookupSchedule s = Some n →
  isFalse (prop n "active") = strictEqStr (prop s "status") "canceled".
Proof.
  unfold normalizeLookupSchedule. destruct (nullish s); [done|].
  intros [= <-]. simpl. by destruct (strictEqStr _ _).
Qed.

(** X12.  A canceled schedule is never offered for enrollment and every
    other schedule of the response is: the schedules the select keeps are
    exactly those whose [status] is not the string 'canceled'. *)
Theorem canceled_schedules_not_offered items normalized :
  mapM normalizeLookupSchedule items = Some normalized →
  mapM normalizeLookupSchedule
    (filter (λ s, strictEqStr (prop s "status") "canceled" = false) items)
  = Some (activeSchedules normalized).
Proof.
  revert normalized. induction items as [|s items IH]; intros normalized.
  - by intros [= <-].
  - rewrite mapM_cons_option. unfold activeSchedules in *.
    destruct (normalizeLookupSchedule s) as [n|] eqn:Hn; [|done]. simpl.
    destruct (mapM normalizeLookupSchedule items) as [ns|]; [|done]. simpl.
    intros [= <-]. specialize (IH ns eq_refl).
    rewrite !filter_cons, (normalizeLookupSchedule_active s n Hn).
    destruct (decide (strictEqStr (prop s "status") "canceled" = false)).
    + rewrite mapM_cons_option, Hn. simpl. by rewrite IH.
    + done.
Qed.

Lemma canceled_schedules_not_offered_witness :
  mapM normalizeLookupSchedule schedule_items = Some normalized_schedule_items ∧
  mapM normalizeLookupSchedule
    (filter (λ s, strictEqStr (prop s "status") "canceled" = false) schedule_items)
  = Some (activeSchedules normalized_schedule_items).
Proof.
  assert (mapM normalizeLookupSchedule schedule_items
          = Some normalized_schedule_items) as Hmap by (vm_compute; reflexivity).
  split; [exact Hmap|].
  exact (canceled_schedules_not_offered schedule_items normalized_schedule_items Hmap).
Defined.

(** Of the two schedules of the sample response the select keeps the
    published one. *)
Example offered_schedules :
  (λ s, prop s "_id") <$> activeSchedules normalized_schedule_items
  = [JStr "s-monday"].
Proof. vm_compute. reflexivity. Qed.

(** ** The filter effect and the selection *)

Lemma no_student_has_id result id :
  Forall studentOfPanel result →
  existsb (λ r, strictEqStr (prop r "_id") id || strictEqStr (prop r "id") id) result
  = false.
Proof.
  induction 1 as [|r result (_ & _ & H1 & H2) _ IH]; [done|].
  simpl. by rewrite H1, H2, IH.
Qed.

Lemma jfilter_sublist f l : ∀ r, jfilter f l = Some r → r `sublist_of` l.
Proof.
  induction l as [|x l IH]; intros r; simpl; [by intros [= <-]|].
  destruct (f x) as [b|]; [|done]. simpl.
  destruct (jfilter f l) as [r'|]; [|done]. simpl. intros [= <-].
  destruct b; [apply sublist_skip|apply sublist_cons]; by apply IH.
Qed.

Lemma jfilter_Forall (P : JSON → Prop) f l : ∀ r,
  Forall P l → jfilter f l = Some r → Forall P r.
Proof.
  induction l as [|x l IH]; intros r Hl; simpl; [by intros [= <-]|].
  apply Forall_cons_1 in Hl as [Hx Hl].
  destruct (f x) as [b|]; [|done]. simpl.
  destruct (jfilter f l) as [r'|]; [|done]. simpl. intros [= <-].
  destruct b; [apply List.Forall_cons; [done|]|]; by apply IH.
Qed.

Lemma jfilter_all f l :
  Forall (λ x, f x = Some true) l → jfilter f l = Some l.
Proof.
  induction 1 as [|x l Hx _ IH]; [done|]. simpl. by rewrite Hx, IH.
Qed.

Lemma jfilter_is_Some f l :
  Forall (λ x, is_Some (f x)) l → is_Some (jfilter f l).
Proof.
  induction 1 as [|x l [b Hx] _ [r IH]]; [by eexists|].
  simpl. rewrite Hx, IH. by eexists.
Qed.

Lemma studentMatches_is_Some trim toLowerCase stringOf fy fs fd s :
  textFields s → is_Some (studentMatches trim toLowerCase stringOf fy fs fd s).
Proof.
  intros [[sec Hsec] [dep Hdep]]. unfold studentMatches.
  rewrite Hsec, Hdep. by eexists.
Qed.

Lemma studentMatches_all trim toLowerCase stringOf s :
  textFields s →
  studentMatches trim toLowerCase stringOf "all" "all" "all" s = Some true.
Proof.
  intros [[sec Hsec] [dep Hdep]]. unfold studentMatches.
  by rewrite Hsec, Hdep.
Qed.

(** X13.  Whenever the effect runs to its end (the students were loaded or
    a filter changed), the selection comes out empty, whatever was selected
    and whoever passes the filters: the kept ids are those equal to the
    [_id] or the [id] of a filtered student, and the students of the panel
    have neither.  The filtered students are students of the list, in
    order.  The effect runs to its end when the [section] and the
    [department] of every student are strings or falsy; with the three
    filters at 'all' every student is then kept. *)
Theorem filter_effect_clears_selection
    (trim toLowerCase : string → string) (stringOf : JSON → string)
    filterYearLevel filterSection filterDepartment allStudents prev :
  Forall studentOfPanel allStudents →
  (∀ filtered selected,
     filterEffect trim toLowerCase stringOf filterYearLevel filterSection
       filterDepartment allStudents prev = Some (filtered, selected) →
     selected = [] ∧ filtered `sublist_of` allStudents) ∧
  (Forall textFields allStudents →
   is_Some (filterEffect trim toLowerCase stringOf filterYearLevel filterSection
              filterDepartment allStudents prev) ∧
   filterEffect trim toLowerCase stringOf "all" "all" "all" allStudents prev
   = Some (allStudents, [])).
Proof.
  intros Hall.
  assert (∀ fy fs fd filtered selected,
            filterEffect trim toLowerCase stringOf fy fs fd allStudents prev
            = Some (filtered, selected) →
            selected = [] ∧ filtered `sublist_of` allStudents) as Hruns.
  { intros fy fs fd filtered selected. unfold filterEffect.
    destruct (jfilter _ allStudents) as [result|] eqn:Hres; [|done].
    simpl. intros [= <- <-]. split; [|by eapply jfilter_sublist].
    pose proof (jfilter_Forall _ _ _ _ Hall Hres) as Hpanel.
    clear Hres. induction prev as [|id prev IH]; [done|].
    rewrite filter_cons, IH.
    by rewrite (no_student_has_id result id Hpanel). }
  split; [by apply Hruns|].
  intros Htext. split.
  - unfold filterEffect.
    destruct (jfilter_is_Some
                (studentMatches trim toLowerCase stringOf filterYearLevel
                   filterSection filterDepartment) allStudents) as [r Hr].
    { eapply Forall_impl; [exact Htext|].
      intros s Hs. by apply studentMatches_is_Some. }
    rewrite Hr. by eexists.
  - destruct (filterEffect trim toLowerCase stringOf "all" "all" "all"
                allStudents prev) as [[filtered selected]|] eqn:Heff.
    + destruct (Hruns _ _ _ _ _ Heff) as [-> _].
      revert Heff. unfold filterEffect. rewrite jfilter_all.
      * simpl. by intros [= <-].
      * eapply Forall_impl; [exact Htext|].
        intros s Hs. by apply studentMatches_all.
    + revert Heff. unfold filterEffect. rewrite jfilter_all; [done|].
      eapply Forall_impl; [exact Htext|].
      intros s Hs. by apply studentMatches_all.
Qed.

Lemma filter_effect_clears_selection_witness :
  Forall studentOfPanel
    (p_allStudents
       (loadEnrollmentLookups empty_panel schedules_response students_response)) ∧
  filterEffect ascii_trim ascii_lower stringOfPrimitive "2" "all" "all"
    (p_allStudents
       (loadEnrollmentLookups empty_panel schedules_response students_response))
    ["st-alex"]
  = Some (p_allStudents
            (loadEnrollmentLookups empty_panel schedules_response students_response),
          []) ∧
  ([] : list string) = [] ∧
  p_allStudents
    (loadEnrollmentLookups empty_panel schedules_response students_response)
  `sublist_of`
  p_allStudents
    (loadEnrollmentLookups empty_panel schedules_response students_response).
Proof.
  assert (Forall studentOfPanel
            (p_allStudents
               (loadEnrollmentLookups empty_panel schedules_response
                  students_response))) as Hall.
  { vm_compute. repeat constructor. }
  assert (filterEffect ascii_trim ascii_lower stringOfPrimitive "2" "all" "all"
            (p_allStudents
               (loadEnrollmentLookups empty_panel schedules_response
                  students_response))
            ["st-alex"]
          = Some (p_allStudents
                    (loadEnrollmentLookups empty_panel schedules_response
                       students_response),
                  [])) as Heff.
  { vm_compute. reflexivity. }
  split; [exact Hall|]. split; [exact Heff|].
  exact (proj1 (filter_effect_clears_selection ascii_trim ascii_lower
                  stringOfPrimitive "2" "all" "all" _ ["st-alex"] Hall) _ _ Heff).
Defined.

Lemma toggleSelectStudent_elem prev id x :
  x ∈ toggleSelectStudent prev id ↔
  (x = id ∧ id ∉ prev) ∨ (x ≠ id ∧ x ∈ prev).
Proof.
  unfold toggleSelectStudent. case_bool_decide as Hin.
  - rewrite list_elem_of_filter. split.
    + intros [Hne Hx]. by right.
    + intros [[-> Hout]|[Hne Hx]]; done.
  - rewrite elem_of_app, list_elem_of_singleton. split.
    + intros [Hx| ->]; [right|by left]. split; [|done]. by intros ->.
    + intros [[-> _]|[_ Hx]]; [by right|by left].
Qed.

Lemma toggleSelectStudent_NoDup prev id :
  NoDup prev → NoDup (toggleSelectStudent prev id).
Proof.
  intros Hnd. unfold toggleSelectStudent. case_bool_decide as Hin.
  - by apply NoDup_filter.
  - apply NoDup_app. split; [done|]. split; [|apply NoDup_singleton].
    intros x Hx ->%list_elem_of_singleton. done.
Qed.

(** X14.  Toggling a student flips that student's membership in the
    selection and no other, keeps the selection free of duplicates, and
    toggling the same student twice gives back the same set of ids. *)
Theorem toggleSelectStudent_flips prev studentId :
  NoDup prev →
  NoDup (toggleSelectStudent prev studentId) ∧
  (studentId ∈ toggleSelectStudent prev studentId ↔ studentId ∉ prev) ∧
  (∀ x, x ≠ studentId → x ∈ toggleSelectStudent prev studentId ↔ x ∈ prev) ∧
  toggleSelectStudent (toggleSelectStudent prev studentId) studentId ≡ₚ prev.
Proof.
  intros Hnd. split_and!.
  - by apply toggleSelectStudent_NoDup.
  - rewrite toggleSelectStudent_elem. tauto.
  - intros x Hne. rewrite toggleSelectStudent_elem. tauto.
  - apply NoDup_Permutation; [by do 2 apply toggleSelectStudent_NoDup|done|].
    intros x. rewrite !toggleSelectStudent_elem.
    destruct (decide (x = studentId)) as [->|Hne];
      destruct (decide (studentId ∈ prev)); tauto.
Qed.

Lemma toggleSelectStudent_flips_witness :
  NoDup ["st-alex"; "st-bea"] ∧
  toggleSelectStudent ["st-alex"; "st-bea"] "st-alex" = ["st-bea"] ∧
  toggleSelectStudent (toggleSelectStudent ["st-alex"; "st-bea"] "st-alex") "st-alex"
  ≡ₚ ["st-alex"; "st-bea"].
Proof.
  assert (NoDup ["st-alex"; "st-bea"]) as Hnd.
  { exact (bool_decide_unpack (NoDup ["st-alex"; "st-bea"]) I). }
  split; [exact Hnd|]. split; [vm_compute; reflexivity|].
  exact (proj2 (proj2 (proj2
           (toggleSelectStudent_flips ["st-alex"; "st-bea"] "st-alex" Hnd)))).
Defined.

(** ** Enrolling the selection *)



(** A response with two created enrollments and one conflict: one success
    toast, then the reloads, then the selection is cleared. *)
Example enroll_two_of_three :
  handleEnrollSelected (Some monday_option) ["st-alex"; "st-bea"; "st-cy"]
    (Returned (mkEnrollResponse (JBool true) JUndefined
                 (Some [JStr "e-1"; JStr "e-2"]) (Some [JStr "st-cy"])))
  = [SetEnrolling true;
     CreateEnrollment (JStr "s-monday") (JStr "c-cs101") (JStr "i-chen")
       ["st-alex"; "st-bea"; "st-cy"];
     ToastSuccess "Successfully enrolled 2 student(s). 1 conflict(s) detected.";
     LoadEnrolledStudents; LoadEnrollmentLookups; ClearSelected;
     SetEnrolling false].
Proof. vm_compute. reflexivity. Qed.

(** ** The students under a schedule card *)

Lemma hexOnly_allHex s : allHex s = true → hexOnly s = s.
Proof.
  induction s as [|a s IH]; simpl; [done|].
  intros [Ha Hs]%andb_true_iff. by rewrite Ha, IH.
Qed.

Lemma filter_ext_Forall {A} (P Q : A → Prop)
    `{∀ x, Decision (P x)} `{∀ x, Decision (Q x)} (l : list A) :
  Forall (λ x, P x ↔ Q x) l → filter P l = filter Q l.
Proof.
  induction 1 as [|x l Hx _ IH]; [done|].
  rewrite !filter_cons, IH.
  destruct (decide (P x)), (decide (Q x)); tauto.
Qed.

(** X17.  The rows under a schedule card are found by comparing the ids
    with everything but hexadecimal digits removed.  A row whose schedule
    id is the id of the card is always listed; and when the ids consist of
    hexadecimal digits, as the ids of the store do, the rows listed are
    exactly the enrolled students of that schedule, in table order. *)
Theorem cardRows_of_schedule
    (localeCompare : string → string → Z) enrolledStudents scheduleId :
  (∀ r, r ∈ enrolledStudents → es_scheduleId r = scheduleId →
        r ∈ cardRows localeCompare enrolledStudents scheduleId) ∧
  (allHex scheduleId = true →
   Forall (λ r, allHex (es_scheduleId r) = true) enrolledStudents →
   cardRows localeCompare enrolledStudents scheduleId
   = js_sort (sortEnrolledStudents localeCompare)
       (filter (λ r, es_scheduleId r = scheduleId) enrolledStudents)).
Proof.
  unfold cardRows. split.
  - intros r Hr <-. rewrite js_sort_Permutation.
    apply list_elem_of_filter. split; [apply String.eqb_refl|done].
  - intros Hsid Hrows. f_equal. apply filter_ext_Forall.
    eapply Forall_impl; [exact Hrows|]. intros r Hr. simpl.
    rewrite String.eqb_eq, (hexOnly_allHex _ Hr), (hexOnly_allHex _ Hsid). done.
Qed.

(** Ids that differ outside the hexadecimal digits are taken for the same
    schedule: a row of schedule 'x1' is listed under the card '1y'. *)
Example cardRows_other_schedule :
  cardRows codeUnitCompare [on_schedule "x1" (row "e1" "Reyes" "1" "A")] "1y"
  = [on_schedule "x1" (row "e1" "Reyes" "1" "A")].
Proof. vm_compute. reflexivity. Qed.

(** ** The Map of enrollment counts *)

Lemma trackAll_lookup_key es : ∀ m n k,
  trackAll m n es !! k
  = match filedUnder k n es with
    | O => m !! k
    | S c => Some (count_or (m !! k) 0 + S c)%nat
    end.
Proof.
  induction es as [|e es IH]; intros m n k; simpl; [done|].
  rewrite IH. unfold track.
  destruct (scheduleKey n e) as [k'|] eqn:Hk.
  - case_bool_decide as Heq.
    + injection Heq as ->. rewrite lookup_insert_eq, count_or_succ. simpl.
      destruct (filedUnder k (S n) es); f_equal; lia.
    + rewrite lookup_insert_ne by congruence. done.
  - by rewrite bool_decide_eq_false_2.
Qed.

(** X8.  After the enrollments went through the callback, the Map holds
    for every key exactly the number of enrollments filed under it, and no
    entry, rather than a zero, for a key under which none is filed. *)
Theorem enrollmentsBySchedule_counts es k :
  enrollmentsBySchedule es !! k
  = match filedUnder k 0 es with
    | O => None
    | S c => Some (S c)
    end.
Proof.
  unfold enrollmentsBySchedule. rewrite trackAll_lookup_key, lookup_empty.
  by destruct (filedUnder k 0 es).
Qed.

(** * Further properties of the subjects view *)

Lemma mapRes_object_without_subjects stringOf fields :
  jtruthy (prop (JObj fields) "subjects") = false →
  jtruthy (prop (JObj fields) "data") = false →
  mapRes stringOf (JObj fields) = None.
Proof.
  intros Hs Hd. unfold mapRes, subjectsOf, optProp, jor. by rewrite Hs, Hd.
Qed.

Lemma mapRes_null stringOf : mapRes stringOf JNull = Some [].
Proof. reflexivity. Qed.

(** X18.  [loadAllYears] fails as a whole: when one of the four requests is
    rejected, or one response cannot be mapped, the lists of all four year
    levels stay as they were and one error toast is shown; loading is
    switched off.  A response cannot be mapped, for one, when it is an
    object that has its rows neither under [subjects] nor under [data]; a
    [null] response maps to the empty list. *)
Theorem loadAllYears_fails_as_a_whole (stringOf : JSON → string) st y1 y2 y3 y4 :
  y1 ≫= mapRes stringOf = None ∨ y2 ≫= mapRes stringOf = None ∨
  y3 ≫= mapRes stringOf = None ∨ y4 ≫= mapRes stringOf = None →
  loadAllYears stringOf st y1 y2 y3 y4
  = mkSubjects (subjectsByYear st) false
      (s_toasts st ++ ["Failed to load subjects"])%list ∧
  (∀ fields,
     jtruthy (prop (JObj fields) "subjects") = false →
     jtruthy (prop (JObj fields) "data") = false →
     mapRes stringOf (JObj fields) = None) ∧
  mapRes stringOf JNull = Some [].
Proof.
  intros Hfail.
  split; [|split; [apply mapRes_object_without_subjects|apply mapRes_null]].
  unfold loadAllYears.
  destruct y1 as [r1|], y2 as [r2|], y3 as [r3|], y4 as [r4|]; simpl in *;
    try done;
    try (destruct Hfail as [?|[?|[?|?]]]; done).
  destruct (mapRes stringOf r1); simpl;
    [|done].
  destruct (mapRes stringOf r2); simpl; [|done].
  destruct (mapRes stringOf r3); simpl; [|done].
  destruct (mapRes stringOf r4); simpl; [|done].
  destruct Hfail as [?|[?|[?|?]]]; done.
Qed.

Lemma loadAllYears_fails_as_a_whole_witness :
  Some items_response ≫= mapRes stringOfPrimitive = None ∧
  loadAllYears stringOfPrimitive initial_subjects
    (Some JNull) (Some JNull) (Some items_response) (Some JNull)
  = mkSubjects (subjectsByYear initial_subjects) false ["Failed to load subjects"].
Proof.
  assert (Some items_response ≫= mapRes stringOfPrimitive = None) as Hbad
    by reflexivity.
  split; [exact Hbad|].
  exact (proj1 (loadAllYears_fails_as_a_whole stringOfPrimitive initial_subjects
                  (Some JNull) (Some JNull) (Some items_response) (Some JNull)
                  (or_intror (or_intror (or_introl Hbad))))).
Defined.

(** X19.  The two mappings of a subject agree when the response gives it a
    [day] and a [time].  For a subject that the response describes by
    [dayOfWeek], [startTime] and [endTime] instead, the row of the first
    load shows its schedule and the row after [reloadYear] does not: the
    fall-backs exist in [loadAllYears] only. *)
Theorem reload_mapping_drops_fallbacks (stringOf : JSON → string) s :
  (jtruthy (prop s "day") = true → jtruthy (prop s "time") = true →
   reloadItem s = mapResItem stringOf s) ∧
  (nullish s = false →
   jtruthy (prop s "day") = false → jtruthy (prop s "time") = false →
   jtruthy (prop s "dayOfWeek") = true →
   jtruthy (prop s "startTime") = true → jtruthy (prop s "endTime") = true →
   ∃ loaded reloaded,
     mapResItem stringOf s = Some loaded ∧ reloadItem s = Some reloaded ∧
     showsSchedule loaded = true ∧ showsSchedule reloaded = false).
Proof.
  split.
  - intros Hday Htime. unfold reloadItem, mapResItem, jor.
    by rewrite Hday, Htime.
  - intros Hs Hday Htime Hdow Hstart Hend.
    unfold reloadItem, mapResItem. rewrite Hs.
    eexists _, _. split; [done|]. split; [done|].
    unfold showsSchedule. simpl.
    rewrite (proj2 (jand_truthy (prop s "startTime") (prop s "endTime")))
      by done.
    unfold jor, jand. rewrite Hday, Htime, Hdow. simpl.
    split; [|by rewrite Hday].
    destruct (jString stringOf (prop s "startTime")); done.
Qed.

Example reload_hides_schedule :
  (showsSchedule <$> mapResItem stringOfPrimitive subject_by_times) = Some true ∧
  (showsSchedule <$> reloadItem subject_by_times) = Some false.
Proof. split; reflexivity. Qed.

(** X20.  [reloadYear] touches the list of its own year level only, and
    nothing at all when the request is rejected or the response cannot be
    mapped: it never shows a toast and never changes the loading flag. *)
Theorem reloadYear_frame st year res :
  s_toasts (reloadYear st year res) = s_toasts st ∧
  s_loading (reloadYear st year res) = s_loading st ∧
  (∀ y, y ≠ year →
        subjectsByYear (reloadYear st year res) y = subjectsByYear st y) ∧
  (res ≫= (λ r, jmap reloadItem (subjectsOf r)) = None →
   reloadYear st year res = st).
Proof.
  unfold reloadYear.
  destruct (res ≫= λ r, jmap reloadItem (subjectsOf r)) as [l|]; simpl;
    split_and!; try done.
  intros y Hne. by rewrite decide_False.
Qed.

(** ** The order of the schedule select *)

Lemma indexFrom_bounds days s : ∀ i,
  indexFrom i days s = -1 ∨ (i ≤ indexFrom i days s)%Z.
Proof.
  induction days as [|d days IH]; intros i; simpl; [by left|].
  destruct (String.eqb d s); [right; lia|].
  destruct (IH (i + 1)); [by left|right; lia].
Qed.

Lemma indexFrom_elem days s : ∀ i,
  (0 ≤ i)%Z → (indexFrom i days s = -1 ↔ s ∉ days).
Proof.
  induction days as [|d days IH]; intros i Hi; simpl.
  - split; [intros _; apply not_elem_of_nil|done].
  - rewrite not_elem_of_cons. destruct (String.eqb_spec d s) as [->|Hne].
    + split; [lia|by intros [? _]].
    + rewrite (IH (i + 1)) by lia. split; [by split; [congruence|]|by intros [_ ?]].
Qed.

(** X21.  Between two options with the same course code the comparator of
    the select does not throw and orders by the position of the day in
    Monday to Saturday; a day that is not in that list, Sunday included,
    has position -1, so that a Sunday class comes before a class of the
    same course on any listed day. *)
Theorem compareOptions_day_order
    (localeCompare : string → string → Z) (stringOf : JSON → string) a b :
  jStrictEq (prop a "courseCode") (prop b "courseCode") = true →
  compareOptions localeCompare stringOf a b
  = Some (dayIndex (prop a "dayOfWeek") - dayIndex (prop b "dayOfWeek")) ∧
  (∀ s, dayIndex (JStr s) = -1 ↔ s ∉ selectDays) ∧
  (∀ s, s ∈ selectDays → (0 ≤ dayIndex (JStr s))%Z) ∧
  (prop a "dayOfWeek" = JStr "Sunday" →
   (∃ d, d ∈ selectDays ∧ prop b "dayOfWeek" = JStr d) →
   ∃ c, compareOptions localeCompare stringOf a b = Some c ∧ c < 0).
Proof.
  intros Hcode.
  assert (compareOptions localeCompare stringOf a b
          = Some (dayIndex (prop a "dayOfWeek") - dayIndex (prop b "dayOfWeek")))
    as Hcmp.
  { unfold compareOptions. by rewrite Hcode. }
  assert (∀ s, dayIndex (JStr s) = -1 ↔ s ∉ selectDays) as Hout.
  { intros s. unfold dayIndex. by apply indexFrom_elem. }
  assert (∀ s, s ∈ selectDays → (0 ≤ dayIndex (JStr s))%Z) as Hin.
  { intros s Hs. unfold dayIndex.
    destruct (indexFrom_bounds selectDays s 0) as [Hneg|?]; [|done].
    by apply (indexFrom_elem selectDays s 0) in Hneg. }
  split_and!; [done..|].
  intros Ha (d & Hd & Hb). eexists. split; [exact Hcmp|].
  rewrite Ha, Hb. specialize (Hin d Hd).
  change (dayIndex (JStr "Sunday")) with (-1). lia.
Qed.

Lemma compareOptions_day_order_witness :
  jStrictEq (JStr "CS101") (JStr "CS101") = true ∧
  compareOptions codeUnitCompare stringOfPrimitive
    (JObj [("_id", JStr "s-sunday"); ("courseCode", JStr "CS101");
           ("dayOfWeek", JStr "Sunday"); ("active", JBool true)])
    (JObj [("_id", JStr "s-monday"); ("courseCode", JStr "CS101");
           ("dayOfWeek", JStr "Monday"); ("active", JBool true)])
  = Some (-1 - 0).
Proof.
  split; [reflexivity|].
  exact (proj1 (compareOptions_day_order codeUnitCompare stringOfPrimitive
                  (JObj [("_id", JStr "s-sunday"); ("courseCode", JStr "CS101");
                         ("dayOfWeek", JStr "Sunday"); ("active", JBool true)])
                  (JObj [("_id", JStr "s-monday"); ("courseCode", JStr "CS101");
                         ("dayOfWeek", JStr "Monday"); ("active", JBool true)])
                  eq_refl)).
Defined.
